(** * The WebTransport voice-chat client: a shallow embedding of
      [VoiceChatClient] (client/src/voice) and of the packet table of
      [packet.proto], with the properties of its session protocol. *)

From Stdlib Require Import ZArith List String Lia.
From Stdlib Require Import Strings.Byte.
From stdpp Require Import base option list gmap strings.

Import ListNotations.
Local Open Scope Z_scope.

(** ** Bytes

    A [Uint8Array] is a [list byte]; reading an element gives its value
    as a number. *)

Definition byte_to_Z (b : byte) : Z := Z.of_N (Byte.to_N b).

(** Storing a number into a [Uint8Array] slot keeps its low eight bits. *)
Definition byte_of_Z (z : Z) : byte :=
  match Byte.of_N (Z.to_N (z mod 256)) with
  | Some b => b
  | None => x00
  end.

#[global] Instance byte_eq_dec : EqDecision byte := Byte.byte_eq_dec.

(** ** packet.proto *)

Inductive PacketType :=
| AUTH_REQUEST
| AUTH_RESPONSE_SUCCESS
| AUTH_RESPONSE_ERROR
| JOIN_ROOM_REQUEST
| JOIN_ROOM_RESPONSE
| USER_JOINED
| USER_LEFT.

Definition PacketType_value (t : PacketType) : Z :=
  match t with
  | AUTH_REQUEST => 0
  | AUTH_RESPONSE_SUCCESS => 1
  | AUTH_RESPONSE_ERROR => 2
  | JOIN_ROOM_REQUEST => 3
  | JOIN_ROOM_RESPONSE => 4
  | USER_JOINED => 5
  | USER_LEFT => 6
  end.

Inductive AuthResponseError_Type := INVALID_CREDENTIALS | ALREADY_LOGGED_IN.

Module AuthRequest.
Record t := Build { username : string; token : string }.
End AuthRequest.

Module AuthResponseSuccess.
Record t := Build { sessionId : Z }.
End AuthResponseSuccess.

Module AuthResponseError.
Record t := Build { type : AuthResponseError_Type }.
End AuthResponseError.

Module JoinRoomRequest.
Record t := Build { roomKey : string }.
End JoinRoomRequest.

(** Modelled from the spec: [common.proto], which declares [RoomUser], is
    not among the sources; the spec gives a room user a session
    identifier (the key within a room) and a display name. *)
Module RoomUser.
Record t := Build { sessionId : Z; name : string }.
End RoomUser.

Module JoinRoomResponse.
Record t := Build { users : list RoomUser.t }.
End JoinRoomResponse.

(** The protobuf runtime ([toBinary], [fromBinary] of @bufbuild/protobuf
    with the generated schemas) is a dependency of the client, taken as
    an interface.  [None] stands for [fromBinary] throwing. *)
Class ProtobufCodec := {
  toBinary_AuthRequest : AuthRequest.t -> list byte;
  toBinary_JoinRoomRequest : JoinRoomRequest.t -> list byte;
  fromBinary_AuthResponseSuccess : list byte -> option AuthResponseSuccess.t;
  fromBinary_AuthResponseError : list byte -> option AuthResponseError.t;
  fromBinary_JoinRoomResponse : list byte -> option JoinRoomResponse.t;
  fromBinary_RoomUser : list byte -> option RoomUser.t
}.

(** The type-level table [PacketTypeToMessage]: the two packet types the
    client may originate, each with its message type. *)
Definition PacketTypeToMessage (t : PacketType) : Type :=
  match t with
  | AUTH_REQUEST => AuthRequest.t
  | JOIN_ROOM_REQUEST => JoinRoomRequest.t
  | _ => Empty_set
  end.

(** ** Events, effects and the client object *)

(** [VoiceChatClientEvents]: every callback slot is optional; a slot is
    [true] when a callback was supplied.  Callbacks are observers: they
    return normally. *)
Record VoiceChatClientEvents := {
  onConnected : bool;
  onConnectionError : bool;
  onConnectionClosed : bool;
  onAuthSuccess : bool;
  onAuthError : bool;
  onJoinedRoom : bool;
  onUserJoined : bool;
  onUserLeft : bool;
  onVoiceData : bool
}.

Inductive ConnectionFailure :=
| FailedToEstablish
| ClosedAbruptly
| ErrorReadingDatagrams
| ErrorReadingFromStream.

Inductive Event :=
| EvConnected
| EvConnectionError (why : ConnectionFailure)
| EvConnectionClosed
| EvAuthSuccess (sessionId : Z)
| EvAuthError (errorType : AuthResponseError_Type)
| EvJoinedRoom (users : list RoomUser.t)
| EvUserJoined (user : RoomUser.t)
| EvUserLeft (sessionId : Z)
| EvVoiceData (sessionId : Z) (data : list byte).

Inductive LogEntry :=
| WarnUnknownPacketType (packetType : Z)
| ErrorParsingAuthSuccess
| ErrorParsingAuthError
| ErrorParsingJoinRoom
| ErrorParsingUserJoined.

(** What a call does to the outside world, in program order. *)
Inductive Effect :=
| GetWriter                       (* wt.datagrams.writable.getWriter() *)
| StartReadLoops                  (* readDatagrams, accept*Streams *)
| Write (packet : list byte)      (* datagramWriter.write(packet) *)
| WriterClose                     (* datagramWriter.close() *)
| TransportClose                  (* wt.close() *)
| Fire (e : Event)                (* an event callback is invoked *)
| Console (l : LogEntry).         (* console.warn / console.error *)

Inductive Writer := DatagramWriter.

Record VoiceChatClient := {
  datagramWriter : option Writer;
  sessionId : option Z;
  username : option string;
  currentRoomKey : option string;
  events : VoiceChatClientEvents;
  connected : bool
}.

(** The constructor: every field at its initialiser, the callbacks as
    given. *)
Definition new_VoiceChatClient (evs : VoiceChatClientEvents) : VoiceChatClient :=
  {| datagramWriter := None; sessionId := None; username := None;
     currentRoomKey := None; events := evs; connected := false |}.

(** The errors the client throws, with the message of each. *)
Inductive ClientError :=
| NotConnected
| NotAuthenticated
| NotInRoom
| WriterNotAvailable
| InvalidPacketType
| TransportError.

Definition message (e : ClientError) : string :=
  match e with
  | NotConnected => "Not connected to server"
  | NotAuthenticated => "Not authenticated"
  | NotInRoom => "Not in a room"
  | WriterNotAvailable => "Datagram writer not available"
  | InvalidPacketType => "Invalid packet type"
  | TransportError => "transport error"
  end.

(** ** The method monad: the client object is threaded through, effects
    are appended, and a throw stops the method while keeping the
    assignments and effects made before it. *)

Inductive Outcome (A : Type) :=
| Returned (a : A)
| Thrown (e : ClientError).
Arguments Returned {A} a.
Arguments Thrown {A} e.

Record Run (A : Type) := MkRun {
  final : VoiceChatClient;
  effects : list Effect;
  outcome : Outcome A
}.
Arguments MkRun {A} final effects outcome.
Arguments final {A} r.
Arguments effects {A} r.
Arguments outcome {A} r.

Definition Method (A : Type) : Type := VoiceChatClient -> Run A.

Definition ret {A} (a : A) : Method A := fun c => MkRun c [] (Returned a).

Definition throw {A} (e : ClientError) : Method A := fun c => MkRun c [] (Thrown e).

Definition bind {A B} (m : Method A) (k : A -> Method B) : Method B :=
  fun c =>
    match m c with
    | MkRun c1 effects1 (Returned a) =>
        match k a c1 with
        | MkRun c2 effects2 result => MkRun c2 (effects1 ++ effects2) result
        end
    | MkRun c1 effects1 (Thrown e) => MkRun c1 effects1 (Thrown e)
    end.

Definition this : Method VoiceChatClient := fun c => MkRun c [] (Returned c).

Definition assign (f : VoiceChatClient -> VoiceChatClient) : Method unit :=
  fun c => MkRun (f c) [] (Returned tt).

Definition emit (e : Effect) : Method unit := fun c => MkRun c [e] (Returned tt).

(** The methods are written with stdpp's monad notations:
    [x ← m; k] and [m;; k]. *)
#[global] Instance Method_ret : MRet Method := @ret.
#[global] Instance Method_bind : MBind Method := fun A B k m => bind m k.

(** [try { body } catch (error) { handler }] *)
Definition try_catch {A} (body : Method A) (handler : ClientError -> Method A) : Method A :=
  fun c =>
    match body c with
    | MkRun c1 effects1 (Returned a) => MkRun c1 effects1 (Returned a)
    | MkRun c1 effects1 (Thrown e) =>
        match handler e c1 with
        | MkRun c2 effects2 result => MkRun c2 (effects1 ++ effects2) result
        end
    end.

(** Field assignments. *)
Definition set_datagramWriter (v : option Writer) (c : VoiceChatClient) :=
  {| datagramWriter := v; sessionId := sessionId c; username := username c;
     currentRoomKey := currentRoomKey c; events := events c; connected := connected c |}.
Definition set_sessionId (v : option Z) (c : VoiceChatClient) :=
  {| datagramWriter := datagramWriter c; sessionId := v; username := username c;
     currentRoomKey := currentRoomKey c; events := events c; connected := connected c |}.
Definition set_username (v : option string) (c : VoiceChatClient) :=
  {| datagramWriter := datagramWriter c; sessionId := sessionId c; username := v;
     currentRoomKey := currentRoomKey c; events := events c; connected := connected c |}.
Definition set_currentRoomKey (v : option string) (c : VoiceChatClient) :=
  {| datagramWriter := datagramWriter c; sessionId := sessionId c; username := username c;
     currentRoomKey := v; events := events c; connected := connected c |}.
Definition set_connected (v : bool) (c : VoiceChatClient) :=
  {| datagramWriter := datagramWriter c; sessionId := sessionId c; username := username c;
     currentRoomKey := currentRoomKey c; events := events c; connected := v |}.

(** [if (this.events.onX) this.events.onX(...)] *)
Definition fire (slot : VoiceChatClientEvents -> bool) (e : Event) : Method unit :=
  c ← this;
  if slot (events c) then emit (Fire e) else ret tt.

(** JavaScript truthiness of the nullable fields: [!v] holds for [null],
    for the bigint [0n] and for the empty string. *)
Definition truthy_bigint (v : option Z) : bool :=
  match v with
  | Some z => negb (z =? 0)
  | None => false
  end.

Definition truthy_string (v : option string) : bool :=
  match v with
  | Some s => negb (String.eqb s EmptyString)
  | None => false
  end.

(** ** The methods of [VoiceChatClient] *)

(** [bytesToBigInt]: bigints are unbounded, so nothing is truncated. *)
Definition bytesToBigInt (bytes : list byte) : Z :=
  fold_left (fun result b => Z.lor (Z.shiftl result 8) (byte_to_Z b)) bytes 0.

(** What the transport does when [connect] awaits it. *)
Inductive TransportBehaviour :=
| ReadyResolves          (* wt.ready resolves and getWriter() succeeds *)
| ReadyRejects           (* wt.ready rejects *)
| GetWriterThrows.       (* wt.ready resolves, getWriter() throws *)

(** What the datagram writer does when [close] awaits its [close()]:
    the promise rejects when the writable side has already failed, as it
    has once the transport is lost. *)
Inductive WriterBehaviour :=
| CloseResolves
| CloseRejects.

(** How the datagram reader ends: [read()] reports done, or rejects. *)
Inductive ReaderEnding :=
| ReaderDone
| ReaderRejects.

Section Client.
Context `{ProtobufCodec}.

Definition sendProtobufMessage (packetType : PacketType)
    (message : PacketTypeToMessage packetType) : Method unit :=
  c ← this;
  match datagramWriter c with
  | None => throw WriterNotAvailable
  | Some _ =>
      messageBytes ←
        match packetType return PacketTypeToMessage packetType -> Method (list byte) with
        | AUTH_REQUEST => fun m => ret (toBinary_AuthRequest m)
        | JOIN_ROOM_REQUEST => fun m => ret (toBinary_JoinRoomRequest m)
        | _ => fun _ => throw InvalidPacketType
        end message;
      let packet := byte_of_Z (PacketType_value packetType) :: messageBytes in
      emit (Write packet)
  end.

Definition connect (t : TransportBehaviour) : Method unit :=
  try_catch
    (match t with ReadyRejects => throw TransportError | _ => ret tt end;;
     assign (set_connected true);;
     emit GetWriter;;
     match t with GetWriterThrows => throw TransportError | _ => ret tt end;;
     assign (set_datagramWriter (Some DatagramWriter));;
     emit StartReadLoops;;
     fire onConnected EvConnected)
    (fun error =>
       assign (set_connected false);;
       fire onConnectionError (EvConnectionError FailedToEstablish);;
       throw error).

(** The handlers [connect] installs on [wt.closed]. *)
Definition wt_closed (abruptly : bool) : Method unit :=
  assign (set_connected false);;
  if abruptly
  then fire onConnectionError (EvConnectionError ClosedAbruptly)
  else fire onConnectionClosed EvConnectionClosed.

Definition authenticate (username : string) : Method unit :=
  c ← this;
  if negb (connected c) then throw NotConnected else
  assign (set_username (Some username));;
  let authRequest := AuthRequest.Build username EmptyString in
  sendProtobufMessage AUTH_REQUEST authRequest.

Definition joinRoom (roomKey : string) : Method unit :=
  c ← this;
  if negb (connected c) then throw NotConnected else
  if negb (truthy_bigint (sessionId c)) then throw NotAuthenticated else
  assign (set_currentRoomKey (Some roomKey));;
  let joinRoomRequest := JoinRoomRequest.Build roomKey in
  sendProtobufMessage JOIN_ROOM_REQUEST joinRoomRequest.

Definition leaveRoom : Method unit :=
  c ← this;
  if negb (connected c) then throw NotConnected else
  if negb (truthy_bigint (sessionId c)) then throw NotAuthenticated else
  if negb (truthy_string (currentRoomKey c)) then throw NotInRoom else
  assign (set_currentRoomKey None).

Definition sendVoiceData (data : list byte) : Method unit :=
  c ← this;
  if negb (connected c) then throw NotConnected else
  if negb (truthy_bigint (sessionId c)) then throw NotAuthenticated else
  if negb (truthy_string (currentRoomKey c)) then throw NotInRoom else
  match datagramWriter c with
  | None => throw WriterNotAvailable
  | Some _ =>
      let voiceDataPacket := xff :: data in
      emit (Write voiceDataPacket)
  end.

Definition close (writer : WriterBehaviour) : Method unit :=
  c ← this;
  match datagramWriter c with
  | Some _ =>
      emit WriterClose;;
      match writer with CloseRejects => throw TransportError | CloseResolves => ret tt end;;
      assign (set_datagramWriter None)
  | None => ret tt
  end;;
  emit TransportClose;;
  assign (set_connected false);;
  assign (set_sessionId None);;
  assign (set_username None);;
  assign (set_currentRoomKey None).

Definition handleAuthResponseSuccess (data : list byte) : Method unit :=
  match fromBinary_AuthResponseSuccess data with
  | Some response =>
      assign (set_sessionId (Some (AuthResponseSuccess.sessionId response)));;
      fire onAuthSuccess (EvAuthSuccess (AuthResponseSuccess.sessionId response))
  | None => emit (Console ErrorParsingAuthSuccess)
  end.

Definition handleAuthResponseError (data : list byte) : Method unit :=
  match fromBinary_AuthResponseError data with
  | Some response => fire onAuthError (EvAuthError (AuthResponseError.type response))
  | None => emit (Console ErrorParsingAuthError)
  end.

Definition handleJoinRoomResponse (data : list byte) : Method unit :=
  match fromBinary_JoinRoomResponse data with
  | Some response => fire onJoinedRoom (EvJoinedRoom (JoinRoomResponse.users response))
  | None => emit (Console ErrorParsingJoinRoom)
  end.

Definition handleUserJoined (data : list byte) : Method unit :=
  match fromBinary_RoomUser data with
  | Some user => fire onUserJoined (EvUserJoined user)
  | None => emit (Console ErrorParsingUserJoined)
  end.

Definition handleUserLeft (data : list byte) : Method unit :=
  if (8 <=? length data)%nat then
    let sessionId := bytesToBigInt data in
    fire onUserLeft (EvUserLeft sessionId)
  else ret tt.

Definition processProtobufData (data : list byte) : Method unit :=
  match data with
  | [] => ret tt
  | first :: messageData =>
      let packetType := byte_to_Z first in
      if packetType =? PacketType_value AUTH_RESPONSE_SUCCESS then
        handleAuthResponseSuccess messageData
      else if packetType =? PacketType_value AUTH_RESPONSE_ERROR then
        handleAuthResponseError messageData
      else if packetType =? PacketType_value JOIN_ROOM_RESPONSE then
        handleJoinRoomResponse messageData
      else if packetType =? PacketType_value USER_JOINED then
        handleUserJoined messageData
      else if packetType =? PacketType_value USER_LEFT then
        handleUserLeft messageData
      else emit (Console (WarnUnknownPacketType packetType))
  end.

Definition processDatagramData (data : list byte) : Method unit :=
  if (0 <? length data)%nat && bool_decide (byte_to_Z <$> data !! 0%nat = Some 255) then
    let voiceData := drop 1 data in
    if (8 <=? length voiceData)%nat then
      let sessionIdBytes := take 8 voiceData in
      let sessionId := bytesToBigInt sessionIdBytes in
      let actualVoiceData := drop 8 voiceData in
      fire onVoiceData (EvVoiceData sessionId actualVoiceData)
    else ret tt
  else processProtobufData data.

(** [readDatagrams] over the datagrams the reader yields before it is
    done. *)
Fixpoint readDatagrams_loop (incoming : list (list byte)) : Method unit :=
  match incoming with
  | [] => ret tt
  | value :: rest => processDatagramData value;; readDatagrams_loop rest
  end.

Definition readDatagrams (incoming : list (list byte)) : Method unit :=
  try_catch (readDatagrams_loop incoming)
    (fun _ => fire onConnectionError (EvConnectionError ErrorReadingDatagrams)).

(** [readDatagrams] with the way the reader ends: after the datagrams
    read, [read()] either reports done (the loop breaks) or rejects (the
    catch block reports the error). *)
Definition readDatagrams_until (incoming : list (list byte)) (ending : ReaderEnding)
    : Method unit :=
  try_catch
    (readDatagrams_loop incoming;;
     match ending with ReaderRejects => throw TransportError | ReaderDone => ret tt end)
    (fun _ => fire onConnectionError (EvConnectionError ErrorReadingDatagrams)).

(** [readFromStream] over the chunks of one stream read to its end. *)
Definition readFromStream (chunks : list (list byte)) : Method unit :=
  try_catch
    (let combinedData := concat chunks in
     processProtobufData combinedData)
    (fun _ => fire onConnectionError (EvConnectionError ErrorReadingFromStream)).

(** ** Sessions: everything that can happen to a client object *)

Inductive Action :=
| CallConnect (t : TransportBehaviour)
| CallAuthenticate (username : string)
| CallJoinRoom (roomKey : string)
| CallLeaveRoom
| CallSendVoiceData (data : list byte)
| CallClose (writer : WriterBehaviour)
| Datagram (data : list byte)
| Stream (chunks : list (list byte))
| TransportClosed (abruptly : bool).

Definition perform (a : Action) : Method unit :=
  match a with
  | CallConnect t => connect t
  | CallAuthenticate u => authenticate u
  | CallJoinRoom k => joinRoom k
  | CallLeaveRoom => leaveRoom
  | CallSendVoiceData d => sendVoiceData d
  | CallClose writer => close writer
  | Datagram d => readDatagrams [d]
  | Stream chunks => readFromStream chunks
  | TransportClosed abruptly => wt_closed abruptly
  end.

Fixpoint perform_all (actions : list Action) : Method unit :=
  match actions with
  | [] => ret tt
  | a :: rest =>
      (* a throw goes to the caller of that method; the object lives on *)
      try_catch (perform a) (fun _ => ret tt);;
      perform_all rest
  end.

Inductive reachable : VoiceChatClient -> Prop :=
| reachable_new evs : reachable (new_VoiceChatClient evs)
| reachable_step a c : reachable c -> reachable (final (perform a c)).

End Client.

(** ** The voice frame of the spec *)

(** [big_endian width z]: the [width] low bytes of [z], most significant
    first. *)
Fixpoint big_endian (width : nat) (z : Z) : list byte :=
  match width with
  | O => []
  | S w => big_endian w (z / 256) ++ [byte_of_Z z]
  end.

(** The spec's [big_endian_u64]. *)
Definition big_endian_u64 (sessionId : Z) : list byte := big_endian 8 sessionId.

(** The spec's voice frame: [[0xFF] ++ big_endian_u64(sessionId) ++ audio]. *)
Definition spec_voice_frame (sessionId : Z) (audio : list byte) : list byte :=
  xff :: big_endian_u64 sessionId ++ audio.

(** ** The membership view of an observer *)

(** Modelled from the spec: the Room Membership Tracker (seed, add,
    remove over a map keyed by session identifier).  The client object
    has no such map; the tracker is what an observer of the client's
    events can maintain. *)
Module MembershipTracker.

Definition add (user : RoomUser.t) (m : gmap Z RoomUser.t) : gmap Z RoomUser.t :=
  <[RoomUser.sessionId user := user]> m.

Definition seed (roster : list RoomUser.t) : gmap Z RoomUser.t :=
  foldl (fun m user => add user m) ∅ roster.

Definition remove (sessionId : Z) (m : gmap Z RoomUser.t) : gmap Z RoomUser.t :=
  delete sessionId m.

(** The tracker driven by the callbacks the client invokes. *)
Definition observe (m : gmap Z RoomUser.t) (e : Effect) : gmap Z RoomUser.t :=
  match e with
  | Fire (EvJoinedRoom users) => seed users
  | Fire (EvUserJoined user) => add user m
  | Fire (EvUserLeft sessionId) => remove sessionId m
  | _ => m
  end.

Definition view (trace : list Effect) : gmap Z RoomUser.t := foldl observe ∅ trace.

End MembershipTracker.

(** A membership notification and the packet that carries it. *)
Inductive Notification :=
| UserJoined (user : RoomUser.t)
| UserLeft (sessionId : Z).

Definition notify (m : gmap Z RoomUser.t) (n : Notification) : gmap Z RoomUser.t :=
  match n with
  | UserJoined user => MembershipTracker.add user m
  | UserLeft sessionId => MembershipTracker.remove sessionId m
  end.

Definition Notification_event (n : Notification) : Event :=
  match n with
  | UserJoined user => EvUserJoined user
  | UserLeft sessionId => EvUserLeft sessionId
  end.

Inductive carries `{ProtobufCodec} : list byte -> Notification -> Prop :=
| carries_joined body user :
    fromBinary_RoomUser body = Some user ->
    carries (byte_of_Z (PacketType_value USER_JOINED) :: body) (UserJoined user)
| carries_left payload :
    (8 <= length payload)%nat ->
    carries (byte_of_Z (PacketType_value USER_LEFT) :: payload)
            (UserLeft (bytesToBigInt payload)).

(** ** A codec instance for running the model on concrete packets

    The proto3 wire format restricted to the canonical encodings of the
    messages of [packet.proto] (fields in order, defaults omitted).  The
    properties below hold for every codec; this one supplies concrete
    packets. *)
Module Proto3.

Fixpoint write_varint (fuel : nat) (n : Z) : list byte :=
  match fuel with
  | O => []
  | S k =>
      if n <? 128 then [byte_of_Z n]
      else byte_of_Z (128 + n mod 128) :: write_varint k (n / 128)
  end.

Fixpoint read_varint (fuel : nat) (data : list byte) : option (Z * list byte) :=
  match fuel, data with
  | S k, b :: rest =>
      let v := byte_to_Z b in
      if v <? 128 then Some (v, rest)
      else '(hi, rest') ← read_varint k rest; Some (v - 128 + 128 * hi, rest')
  | _, _ => None
  end.

Definition int64 (n : Z) : Z :=
  let n := n mod 2 ^ 64 in
  if n <? 2 ^ 63 then n else n - 2 ^ 64.

Definition write_string (tag : byte) (s : string) : list byte :=
  if String.eqb s EmptyString then []
  else tag :: write_varint 10 (Z.of_nat (String.length s)) ++ list_byte_of_string s.

Definition read_int64 (tag : byte) (data : list byte) : option (Z * list byte) :=
  match data with
  | t :: rest =>
      if bool_decide (t = tag)
      then '(n, rest') ← read_varint 10 rest; Some (int64 n, rest')
      else Some (0, data)
  | [] => Some (0, [])
  end.

Definition read_bytes (tag : byte) (data : list byte) : option (list byte * list byte) :=
  match data with
  | t :: rest =>
      if bool_decide (t = tag)
      then '(len, rest') ← read_varint 10 rest;
           if len <=? Z.of_nat (length rest')
           then Some (take (Z.to_nat len) rest', drop (Z.to_nat len) rest')
           else None
      else Some ([], data)
  | [] => Some ([], [])
  end.

Definition read_RoomUser (data : list byte) : option RoomUser.t :=
  '(sid, rest) ← read_int64 x08 data;
  '(name, rest') ← read_bytes x12 rest;
  match rest' with
  | [] => Some (RoomUser.Build sid (string_of_list_byte name))
  | _ => None
  end.

Fixpoint read_users (fuel : nat) (data : list byte) : option (list RoomUser.t) :=
  match data, fuel with
  | [], _ => Some []
  | t :: _, S k =>
      if bool_decide (t = x0a)
      then '(body, rest) ← read_bytes x0a data;
           user ← read_RoomUser body;
           users ← read_users k rest;
           Some (user :: users)
      else None
  | _, O => None
  end.

Definition read_AuthResponseSuccess (data : list byte) : option AuthResponseSuccess.t :=
  '(sid, rest) ← read_int64 x08 data;
  match rest with
  | [] => Some (AuthResponseSuccess.Build sid)
  | _ => None
  end.

Definition read_AuthResponseError (data : list byte) : option AuthResponseError.t :=
  '(n, rest) ← read_int64 x08 data;
  match rest with
  | [] =>
      if n =? 0 then Some (AuthResponseError.Build INVALID_CREDENTIALS)
      else if n =? 1 then Some (AuthResponseError.Build ALREADY_LOGGED_IN)
      else None
  | _ => None
  end.

Definition codec : ProtobufCodec := {|
  toBinary_AuthRequest m :=
    write_string x0a (AuthRequest.username m) ++ write_string x12 (AuthRequest.token m);
  toBinary_JoinRoomRequest m := write_string x0a (JoinRoomRequest.roomKey m);
  fromBinary_AuthResponseSuccess := read_AuthResponseSuccess;
  fromBinary_AuthResponseError := read_AuthResponseError;
  fromBinary_JoinRoomResponse data :=
    users ← read_users (length data) data; Some (JoinRoomResponse.Build users);
  fromBinary_RoomUser := read_RoomUser
|}.

End Proto3.

(** ** Concrete sessions *)

Definition all_callbacks : VoiceChatClientEvents :=
  {| onConnected := true; onConnectionError := true; onConnectionClosed := true;
     onAuthSuccess := true; onAuthError := true; onJoinedRoom := true;
     onUserJoined := true; onUserLeft := true; onVoiceData := true |}.

(** connect succeeds. *)
Definition session_connected : VoiceChatClient :=
  final (perform_all (H := Proto3.codec) [CallConnect ReadyResolves]
           (new_VoiceChatClient all_callbacks)).

(** connect, authenticate, the server answers
    AUTH_RESPONSE_SUCCESS(sessionId = 42). *)
Definition session_authenticated : VoiceChatClient :=
  final (perform_all (H := Proto3.codec)
           [CallAuthenticate "alice"; Datagram [x01; x08; x2a]] session_connected).

(** ... then joinRoom("lobby"). *)
Definition session_in_room : VoiceChatClient :=
  final (perform_all (H := Proto3.codec) [CallJoinRoom "lobby"] session_authenticated).

Definition user_A : RoomUser.t := RoomUser.Build 1 "A".
Definition user_B : RoomUser.t := RoomUser.Build 2 "B".
Definition user_C : RoomUser.t := RoomUser.Build 3 "C".

(** JOIN_ROOM_RESPONSE with the roster [A, B]. *)
Definition packet_roster_AB : list byte :=
  [x04; x0a; x05; x08; x01; x12; x01; x41; x0a; x05; x08; x02; x12; x01; x42].

(** USER_JOINED(C) and USER_LEFT(2). *)
Definition packet_joined_C : list byte := [x05; x08; x03; x12; x01; x43].
Definition packet_left_B : list byte := [x06; x00; x00; x00; x00; x00; x00; x00; x02].

(** ** The states of the spec, read off the fields the guards test *)

Definition is_authenticated (c : VoiceChatClient) : Prop :=
  connected c = true /\ truthy_bigint (sessionId c) = true.

Definition is_in_room (c : VoiceChatClient) : Prop :=
  connected c = true /\ truthy_bigint (sessionId c) = true /\
  truthy_string (currentRoomKey c) = true.


(** A run fires a voice-data callback. *)
Definition is_voice_event (e : Effect) : bool :=
  match e with
  | Fire (EvVoiceData _ _) => true
  | _ => false
  end.

(** A run invokes some event callback. *)
Definition is_fire (e : Effect) : bool :=
  match e with
  | Fire _ => true
  | _ => false
  end.

(** ** Proof automation for method bodies *)

Ltac method_unfold :=
  unfold perform, readDatagrams, readDatagrams_until, readFromStream, connect, wt_closed, authenticate,
    joinRoom, leaveRoom, sendVoiceData, close, processDatagramData,
    processProtobufData, handleAuthResponseSuccess, handleAuthResponseError,
    handleJoinRoomResponse, handleUserJoined, handleUserLeft, sendProtobufMessage,
    fire, try_catch, mbind, mret, Method_bind, Method_ret, bind, ret, throw, this,
    assign, emit in *.

Ltac method_step :=
  match goal with
  | |- context [if ?b then _ else _] => destruct b eqn:?
  | |- context [match ?x with Some _ => _ | None => _ end] => destruct x eqn:?
  end.

Ltac method_cases := method_unfold; cbn; repeat (method_step; cbn).

(** ** Typed arrays, as the framing code builds its packets *)

(** [new Uint8Array(size)]: [size] zero bytes. *)
Definition Uint8Array_new (size : nat) : list byte := replicate size x00.

(** [target[index] = value]: the low eight bits are stored; an index out
    of range is ignored. *)
Definition Uint8Array_store (target : list byte) (index : nat) (value : Z) : list byte :=
  <[index := byte_of_Z value]> target.

(** [target.set(source, offset)]: [None] stands for the RangeError
    raised when the source does not fit. *)
Definition Uint8Array_set (target source : list byte) (offset : nat) : option (list byte) :=
  if (offset + length source <=? length target)%nat
  then Some (take offset target ++ source ++ drop (offset + length source) target)
  else None.

(** The three statements that build [voiceDataPacket] in [sendVoiceData]. *)
Definition build_voiceDataPacket (data : list byte) : option (list byte) :=
  let voiceDataPacket := Uint8Array_new (length data + 1) in
  let voiceDataPacket := Uint8Array_store voiceDataPacket 0 255 in
  Uint8Array_set voiceDataPacket data 1.

(** The three statements that build [packet] in [sendProtobufMessage]. *)
Definition build_packet (packetType : PacketType) (messageBytes : list byte)
    : option (list byte) :=
  let packet := Uint8Array_new (length messageBytes + 1) in
  let packet := Uint8Array_store packet 0 (PacketType_value packetType) in
  Uint8Array_set packet messageBytes 1.

(** The chunk loop of [readFromStream]. *)
Fixpoint combine_chunks_loop (chunks : list (list byte)) (combinedData : list byte)
    (offset : nat) : option (list byte) :=
  match chunks with
  | [] => Some combinedData
  | chunk :: rest =>
      combinedData' ← Uint8Array_set combinedData chunk offset;
      combine_chunks_loop rest combinedData' (offset + length chunk)
  end.

Definition combine_chunks (chunks : list (list byte)) : option (list byte) :=
  let totalLength := fold_left (fun acc chunk => (acc + length chunk)%nat) chunks 0%nat in
  let combinedData := Uint8Array_new totalLength in
  combine_chunks_loop chunks combinedData 0.

(** ** Reading a trace *)

(** The datagrams a run writes, in order. *)
Definition written (trace : list Effect) : list (list byte) :=
  omap (fun e => match e with Write packet => Some packet | _ => None end) trace.

(** The callbacks a run invokes, in order. *)
Definition fired (trace : list Effect) : list Event :=
  omap (fun e => match e with Fire ev => Some ev | _ => None end) trace.

(** A run touches the transport: a write, or closing the writer or the
    transport. *)
Definition touches_transport (e : Effect) : bool :=
  match e with
  | Write _ | WriterClose | TransportClose | GetWriter | StartReadLoops => true
  | _ => false
  end.

Example session_in_room_fields :
  session_in_room =
  {| datagramWriter := Some DatagramWriter; sessionId := Some 42;
     username := Some "alice"; currentRoomKey := Some "lobby";
     events := all_callbacks; connected := true |}.
Proof. reflexivity. Qed.

Example roster_AB_parses :
  fromBinary_JoinRoomResponse (ProtobufCodec := Proto3.codec) (drop 1 packet_roster_AB)
  = Some (JoinRoomResponse.Build [user_A; user_B]).
Proof. reflexivity. Qed.

Example joined_C_parses :
  fromBinary_RoomUser (ProtobufCodec := Proto3.codec) (drop 1 packet_joined_C) = Some user_C.
Proof. reflexivity. Qed.

Example auth_request_alice :
  effects (authenticate (H := Proto3.codec) "alice" session_connected)
  = [Write [x00; x0a; x05; x61; x6c; x69; x63; x65]].
Proof. reflexivity. Qed.

(** ** Bytes and big-endian numbers *)

Lemma byte_to_Z_range (b : byte) : 0 <= byte_to_Z b < 256.
Proof.
  unfold byte_to_Z. pose proof (Byte.to_N_bounded b). lia.
Qed.

Lemma byte_to_Z_of_Z (z : Z) : byte_to_Z (byte_of_Z z) = z mod 256.
Proof.
  unfold byte_to_Z, byte_of_Z.
  pose proof (Z.mod_pos_bound z 256 eq_refl) as Hz.
  destruct (Byte.of_N (Z.to_N (z mod 256))) as [b|] eqn:E.
  - apply Byte.to_of_N in E. rewrite E. lia.
  - apply Byte.of_N_None_iff in E. lia.
Qed.

Lemma byte_of_Z_to_Z (b : byte) : byte_of_Z (byte_to_Z b) = b.
Proof.
  unfold byte_of_Z. pose proof (byte_to_Z_range b) as Hb.
  rewrite Z.mod_small by lia. unfold byte_to_Z.
  rewrite N2Z.id, Byte.of_to_N. reflexivity.
Qed.

(** [(result << 8n) | BigInt(b)] appends the byte as the lowest digit. *)
Lemma shift_or_byte (result b : Z) :
  0 <= b < 256 -> Z.lor (Z.shiftl result 8) b = result * 256 + b.
Proof.
  intros Hb.
  assert (Hland : Z.land (Z.shiftl result 8) b = 0).
  { apply Z.bits_inj'. intros n Hn.
    rewrite Z.land_spec, Z.bits_0.
    destruct (Z.lt_ge_cases n 8) as [Hlt|Hge].
    - rewrite Z.shiftl_spec_low by lia. reflexivity.
    - replace b with (b mod 2 ^ 8) by (apply Z.mod_small; lia).
      rewrite Z.mod_pow2_bits_high by lia. apply andb_false_r. }
  pose proof (Z.add_lor_land (Z.shiftl result 8) b) as Hadd.
  rewrite Hland, Z.shiftl_mul_pow2 in Hadd by lia.
  rewrite Z.shiftl_mul_pow2 by lia. lia.
Qed.

Lemma bytesToBigInt_fold (bytes : list byte) (acc : Z) :
  fold_left (fun result b => Z.lor (Z.shiftl result 8) (byte_to_Z b)) bytes acc
  = acc * 256 ^ Z.of_nat (length bytes) + bytesToBigInt bytes.
Proof.
  unfold bytesToBigInt. revert acc.
  induction bytes as [|b bytes IH]; intros acc.
  - simpl. lia.
  - cbn [fold_left length]. rewrite IH, (IH (Z.lor _ _)).
    rewrite !shift_or_byte by apply byte_to_Z_range.
    rewrite Nat2Z.inj_succ, Z.pow_succ_r by lia. ring.
Qed.

Lemma bytesToBigInt_cons (b : byte) (bytes : list byte) :
  bytesToBigInt (b :: bytes)
  = byte_to_Z b * 256 ^ Z.of_nat (length bytes) + bytesToBigInt bytes.
Proof.
  unfold bytesToBigInt at 1. cbn [fold_left].
  rewrite bytesToBigInt_fold, shift_or_byte by apply byte_to_Z_range. ring.
Qed.

Lemma bytesToBigInt_app (hi lo : list byte) :
  bytesToBigInt (hi ++ lo)
  = bytesToBigInt hi * 256 ^ Z.of_nat (length lo) + bytesToBigInt lo.
Proof.
  unfold bytesToBigInt at 1. rewrite fold_left_app.
  fold (bytesToBigInt hi). apply bytesToBigInt_fold.
Qed.

Lemma bytesToBigInt_range (bytes : list byte) :
  0 <= bytesToBigInt bytes < 256 ^ Z.of_nat (length bytes).
Proof.
  induction bytes as [|b bytes IH].
  - cbn. lia.
  - rewrite bytesToBigInt_cons. cbn [length].
    rewrite Nat2Z.inj_succ, Z.pow_succ_r by lia.
    pose proof (byte_to_Z_range b). nia.
Qed.

Lemma big_endian_length (width : nat) (z : Z) : length (big_endian width z) = width.
Proof.
  revert z. induction width as [|w IH]; intros z; cbn [big_endian].
  - reflexivity.
  - rewrite length_app, IH. cbn. lia.
Qed.

Lemma bytesToBigInt_big_endian (width : nat) (z : Z) :
  bytesToBigInt (big_endian width z) = z mod 256 ^ Z.of_nat width.
Proof.
  revert z. induction width as [|w IH]; intros z; cbn [big_endian].
  - cbn. rewrite Z.mod_1_r. reflexivity.
  - rewrite bytesToBigInt_app, IH. cbn [length].
    change (bytesToBigInt [byte_of_Z z]) with (Z.lor (Z.shiftl 0 8) (byte_to_Z (byte_of_Z z))).
    rewrite shift_or_byte by apply byte_to_Z_range.
    rewrite byte_to_Z_of_Z, (Nat2Z.inj_succ w), Z.pow_succ_r by lia.
    change (256 ^ Z.of_nat 1) with 256.
    rewrite Z.rem_mul_r by lia. lia.
Qed.

Lemma bytesToBigInt_big_endian_u64 (sessionId : Z) :
  0 <= sessionId < 2 ^ 64 -> bytesToBigInt (big_endian_u64 sessionId) = sessionId.
Proof.
  intros Hid. unfold big_endian_u64. rewrite bytesToBigInt_big_endian.
  change (256 ^ Z.of_nat 8) with (2 ^ 64). apply Z.mod_small. lia.
Qed.

(** ** Running composed methods *)

Lemma bind_run {A B} (m : Method A) (k : A -> Method B) (c : VoiceChatClient) :
  bind m k c
  = match outcome (m c) with
    | Returned a =>
        let r := k a (final (m c)) in
        MkRun (final r) (effects (m c) ++ effects r) (outcome r)
    | Thrown e => MkRun (final (m c)) (effects (m c)) (Thrown e)
    end.
Proof.
  unfold bind. destruct (m c) as [c1 effects1 [a|e]]; cbn; [|reflexivity].
  destruct (k a c1); reflexivity.
Qed.

Lemma try_catch_returned {A} (body : Method A) (handler : ClientError -> Method A)
    (c : VoiceChatClient) (a : A) :
  outcome (body c) = Returned a -> try_catch body handler c = body c.
Proof.
  unfold try_catch. destruct (body c) as [c1 effects1 [a'|e]]; cbn; congruence.
Qed.

(** ** Dispatch: what every inbound unit leaves alone *)

Section Dispatch.
Context `{ProtobufCodec}.

(** Dispatch returns normally and can only change the session
    identifier. *)
Lemma processProtobufData_frame (data : list byte) (c : VoiceChatClient) :
  outcome (processProtobufData data c) = Returned tt /\
  final (processProtobufData data c)
  = set_sessionId (sessionId (final (processProtobufData data c))) c.
Proof.
  destruct c as [w sid u k evs conn], data as [|first messageData];
    method_cases; auto.
Qed.

Lemma processProtobufData_no_voice (data : list byte) (c : VoiceChatClient) :
  forallb (fun e => negb (is_voice_event e)) (effects (processProtobufData data c)) = true.
Proof.
  destruct c as [w sid u k evs conn], data as [|first messageData];
    method_cases; auto.
Qed.

Lemma processDatagramData_frame (data : list byte) (c : VoiceChatClient) :
  outcome (processDatagramData data c) = Returned tt /\
  final (processDatagramData data c)
  = set_sessionId (sessionId (final (processDatagramData data c))) c.
Proof.
  unfold processDatagramData.
  destruct (_ && _).
  - destruct c as [w sid u k evs conn]. method_cases; auto.
  - apply processProtobufData_frame.
Qed.

Lemma fire_run (slot : VoiceChatClientEvents -> bool) (e : Event) (c : VoiceChatClient) :
  fire slot e c
  = MkRun c (if slot (events c) then [Fire e] else []) (Returned tt).
Proof.
  unfold fire, mbind, Method_bind, bind, this. cbn.
  destruct (slot (events c)); reflexivity.
Qed.

Lemma readDatagrams_loop_cons (value : list byte) (rest : list (list byte))
    (c : VoiceChatClient) :
  readDatagrams_loop (value :: rest) c
  = let r := processDatagramData value c in
    let r' := readDatagrams_loop rest (final r) in
    MkRun (final r') (effects r ++ effects r') (outcome r').
Proof.
  cbn [readDatagrams_loop]. unfold mbind, Method_bind. rewrite bind_run.
  destruct (processDatagramData_frame value c) as [Ho _]. rewrite Ho. reflexivity.
Qed.

Lemma readDatagrams_loop_returns (incoming : list (list byte)) (c : VoiceChatClient) :
  outcome (readDatagrams_loop incoming c) = Returned tt.
Proof.
  revert c. induction incoming as [|value rest IH]; intros c.
  - reflexivity.
  - rewrite readDatagrams_loop_cons. cbn. apply IH.
Qed.

Lemma readDatagrams_is_loop (incoming : list (list byte)) (c : VoiceChatClient) :
  readDatagrams incoming c = readDatagrams_loop incoming c.
Proof.
  unfold readDatagrams. apply (try_catch_returned _ _ c tt), readDatagrams_loop_returns.
Qed.

Lemma perform_Datagram (data : list byte) (c : VoiceChatClient) :
  perform (Datagram data) c = processDatagramData data c.
Proof.
  cbn [perform]. rewrite readDatagrams_is_loop, readDatagrams_loop_cons. cbn.
  rewrite app_nil_r. destruct (processDatagramData_frame data c) as [Ho _].
  destruct (processDatagramData data c) as [c1 effects1 result]. cbn in Ho |- *.
  rewrite Ho. reflexivity.
Qed.

Lemma perform_Stream (chunks : list (list byte)) (c : VoiceChatClient) :
  perform (Stream chunks) c = processProtobufData (concat chunks) c.
Proof.
  cbn [perform]. unfold readFromStream.
  apply (try_catch_returned _ _ c tt), processProtobufData_frame.
Qed.

(** The two branches of [processDatagramData]. *)
Lemma processDatagramData_voice (rest : list byte) (c : VoiceChatClient) :
  processDatagramData (xff :: rest) c
  = if (8 <=? length rest)%nat
    then fire onVoiceData (EvVoiceData (bytesToBigInt (take 8 rest)) (drop 8 rest)) c
    else MkRun c [] (Returned tt).
Proof.
  unfold processDatagramData.
  assert (Hhead : ((0 <? length (xff :: rest))%nat
                   && bool_decide (byte_to_Z <$> (xff :: rest) !! 0%nat = Some 255)) = true)
    by reflexivity.
  rewrite Hhead. change (drop 1 (xff :: rest)) with rest.
  destruct (8 <=? length rest)%nat; reflexivity.
Qed.

Lemma processDatagramData_control (first : byte) (rest : list byte)
    (c : VoiceChatClient) :
  byte_to_Z first <> 255 ->
  processDatagramData (first :: rest) c = processProtobufData (first :: rest) c.
Proof.
  intros Hfirst. unfold processDatagramData.
  assert (Hhead : ((0 <? length (first :: rest))%nat
                   && bool_decide (byte_to_Z <$> (first :: rest) !! 0%nat = Some 255))
                  = false).
  { apply andb_false_intro2, bool_decide_eq_false_2. cbn. congruence. }
  rewrite Hhead. reflexivity.
Qed.

End Dispatch.

(** ** Reachable client objects *)

Section Sessions.
Context `{ProtobufCodec}.

Lemma perform_all_cons_final (a : Action) (rest : list Action) (c : VoiceChatClient) :
  final (perform_all (a :: rest) c) = final (perform_all rest (final (perform a c))).
Proof.
  cbn [perform_all]. unfold mbind, Method_bind, bind, try_catch.
  destruct (perform a c) as [c1 effects1 [[]|e]]; cbn;
    destruct (perform_all rest c1); reflexivity.
Qed.

Lemma perform_all_reachable (actions : list Action) (c : VoiceChatClient) :
  reachable c -> reachable (final (perform_all actions c)).
Proof.
  revert c. induction actions as [|a rest IH]; intros c Hc.
  - exact Hc.
  - rewrite perform_all_cons_final. apply IH, reachable_step, Hc.
Qed.

(** A connected client holds its datagram writer: [connect] sets both,
    [close] clears both, and nothing else touches the writer. *)
Lemma connected_has_writer (c : VoiceChatClient) :
  reachable c -> connected c = true -> datagramWriter c = Some DatagramWriter.
Proof.
  induction 1 as [evs | a c Hc IH].
  - discriminate.
  - destruct a as [t|u|k| |d|writer|d|chunks|abruptly].
    + destruct c as [w sid u k evs conn], t; method_cases; congruence.
    + destruct c as [w sid u' k evs conn]; revert IH; method_cases; auto.
    + destruct c as [w sid u k' evs conn]; revert IH; method_cases; auto.
    + destruct c as [w sid u k evs conn]; revert IH; method_cases; auto.
    + destruct c as [w sid u k evs conn]; revert IH; method_cases; auto.
    + destruct c as [w sid u k evs conn], writer; revert IH; method_cases;
        auto; congruence.
    + rewrite perform_Datagram.
      destruct (processDatagramData_frame d c) as [_ Hf]. rewrite Hf. exact IH.
    + rewrite perform_Stream.
      destruct (processProtobufData_frame (concat chunks) c) as [_ Hf].
      rewrite Hf. exact IH.
    + destruct c as [w sid u k evs conn], abruptly; method_cases; congruence.
Qed.

End Sessions.

Lemma session_in_room_reachable : reachable (H := Proto3.codec) session_in_room.
Proof.
  unfold session_in_room, session_authenticated, session_connected.
  repeat apply perform_all_reachable. constructor.
Qed.

Lemma session_connected_reachable : reachable (H := Proto3.codec) session_connected.
Proof.
  unfold session_connected. apply perform_all_reachable. constructor.
Qed.

(** ** The voice send path *)

Example spec_voice_frame_42 :
  spec_voice_frame 42 [x01; x02; x03]
  = [xff; x00; x00; x00; x00; x00; x00; x00; x2a; x01; x02; x03].
Proof. reflexivity. Qed.

Lemma sendVoiceData_in_room `{ProtobufCodec} (c : VoiceChatClient) (audio : list byte) :
  reachable c -> is_in_room c ->
  sendVoiceData audio c = MkRun c [Write (xff :: audio)] (Returned tt).
Proof.
  intros Hr (Hconn & Hsid & Hroom).
  pose proof (connected_has_writer c Hr Hconn) as Hw.
  unfold sendVoiceData, mbind, Method_bind, bind, this. cbn.
  rewrite Hconn, Hsid, Hroom, Hw. reflexivity.
Qed.

(** C1, as the code has it: in a room (connected, a non-zero session
    identifier held, a non-empty room key recorded), [sendVoiceData audio]
    performs exactly one datagram write, of the bytes [0xFF] ++ audio; the
    held session identifier is not part of the frame, and no field
    changes. *)
Theorem sendVoiceData_writes_marker_then_audio `{ProtobufCodec}
    (c : VoiceChatClient) (s : Z) (audio : list byte) :
  reachable c -> is_in_room c -> sessionId c = Some s ->
  sendVoiceData audio c = MkRun c [Write (xff :: audio)] (Returned tt).
Proof.
  intros Hr Hroom _. apply sendVoiceData_in_room; assumption.
Qed.

Lemma sendVoiceData_writes_marker_then_audio_witness :
  is_in_room session_in_room /\ sessionId session_in_room = Some 42 /\
  sendVoiceData [x01; x02; x03] session_in_room
  = MkRun session_in_room [Write [xff; x01; x02; x03]] (Returned tt).
Proof.
  split; [|split].
  - repeat split; reflexivity.
  - reflexivity.
  - apply (sendVoiceData_writes_marker_then_audio (H := Proto3.codec) session_in_room 42).
    + exact session_in_room_reachable.
    + repeat split; reflexivity.
    + reflexivity.
Defined.

(** C1 as stated fails: with session identifier 42 held,
    [sendVoiceData [1,2,3]] does not write the spec's frame
    [0xFF,0,0,0,0,0,0,0,42,1,2,3]. *)
Lemma sendVoiceData_spec_frame_counterexample :
  is_in_room session_in_room /\ sessionId session_in_room = Some 42 /\
  effects (sendVoiceData [x01; x02; x03] session_in_room)
  <> [Write [xff; x00; x00; x00; x00; x00; x00; x00; x2a; x01; x02; x03]].
Proof.
  split; [|split].
  - repeat split; reflexivity.
  - reflexivity.
  - vm_compute. discriminate.
Qed.

(** C2, as the code has it: the voice branch of dispatch decodes the
    frame [0xFF] ++ big_endian_u64(id) ++ payload to (id, payload), for
    every id below 2^64; the send path produces that frame when it is
    handed big_endian_u64(id) ++ payload as its data, since it adds the
    marker only. *)
Theorem voice_frame_round_trip `{ProtobufCodec}
    (sender receiver : VoiceChatClient) (id : Z) (payload : list byte) :
  0 <= id < 2 ^ 64 ->
  reachable sender -> is_in_room sender ->
  onVoiceData (events receiver) = true ->
  effects (sendVoiceData (big_endian_u64 id ++ payload) sender)
  = [Write (spec_voice_frame id payload)] /\
  processDatagramData (spec_voice_frame id payload) receiver
  = MkRun receiver [Fire (EvVoiceData id payload)] (Returned tt).
Proof.
  intros Hid Hr Hroom Hslot. split.
  - rewrite sendVoiceData_in_room by assumption. reflexivity.
  - unfold spec_voice_frame. rewrite processDatagramData_voice.
    pose proof (big_endian_length 8 id) as Hlen. fold (big_endian_u64 id) in Hlen.
    assert (Hge : (8 <=? length (big_endian_u64 id ++ payload))%nat = true).
    { apply Nat.leb_le. rewrite length_app. lia. }
    rewrite Hge.
    rewrite take_app_length' by exact Hlen.
    rewrite drop_app_length' by exact Hlen.
    rewrite bytesToBigInt_big_endian_u64 by exact Hid.
    rewrite fire_run, Hslot. reflexivity.
Qed.

Lemma voice_frame_round_trip_witness :
  0 <= 42 < 2 ^ 64 /\ is_in_room session_in_room /\
  onVoiceData (events session_connected) = true /\
  effects (sendVoiceData (big_endian_u64 42 ++ [x01; x02; x03]) session_in_room)
  = [Write [xff; x00; x00; x00; x00; x00; x00; x00; x2a; x01; x02; x03]] /\
  processDatagramData (H := Proto3.codec)
    [xff; x00; x00; x00; x00; x00; x00; x00; x2a; x01; x02; x03] session_connected
  = MkRun session_connected [Fire (EvVoiceData 42 [x01; x02; x03])] (Returned tt).
Proof.
  assert (Hid : 0 <= 42 < 2 ^ 64) by lia.
  assert (Hroom : is_in_room session_in_room) by (repeat split; reflexivity).
  split; [exact Hid|]. split; [exact Hroom|]. split; [reflexivity|].
  exact (voice_frame_round_trip (H := Proto3.codec) session_in_room session_connected
           42 [x01; x02; x03] Hid session_in_room_reachable Hroom eq_refl).
Defined.

(** C2 as stated fails: the frame the send path produces for the payload
    [1,2,3] under session identifier 42 is [0xFF,1,2,3], which dispatch
    drops; and a payload of nine bytes comes back as a frame of another
    sender with one byte of audio. *)
Lemma voice_round_trip_counterexample :
  sessionId session_in_room = Some 42 /\
  effects (sendVoiceData [x01; x02; x03] session_in_room) = [Write [xff; x01; x02; x03]] /\
  processDatagramData (H := Proto3.codec) [xff; x01; x02; x03] session_in_room
  = MkRun session_in_room [] (Returned tt) /\
  effects (processDatagramData (H := Proto3.codec) [xff; x01; x02; x03] session_in_room)
  <> [Fire (EvVoiceData 42 [x01; x02; x03])] /\
  effects (sendVoiceData [x00; x00; x00; x00; x00; x00; x00; x07; x09] session_in_room)
  = [Write [xff; x00; x00; x00; x00; x00; x00; x00; x07; x09]] /\
  effects (processDatagramData (H := Proto3.codec)
             [xff; x00; x00; x00; x00; x00; x00; x00; x07; x09] session_in_room)
  = [Fire (EvVoiceData 7 [x09])].
Proof.
  repeat split; try reflexivity. vm_compute. discriminate.
Qed.

(** ** Membership notifications *)

Section Membership.
Context `{ProtobufCodec}.

Lemma dispatch_join_room_response (body : list byte) (c : VoiceChatClient) :
  processDatagramData (byte_of_Z (PacketType_value JOIN_ROOM_RESPONSE) :: body) c
  = handleJoinRoomResponse body c.
Proof. reflexivity. Qed.

Lemma dispatch_user_joined (body : list byte) (c : VoiceChatClient) :
  processDatagramData (byte_of_Z (PacketType_value USER_JOINED) :: body) c
  = handleUserJoined body c.
Proof. reflexivity. Qed.

Lemma dispatch_user_left (payload : list byte) (c : VoiceChatClient) :
  processDatagramData (byte_of_Z (PacketType_value USER_LEFT) :: payload) c
  = handleUserLeft payload c.
Proof. reflexivity. Qed.

Lemma dispatch_auth_response_success (body : list byte) (c : VoiceChatClient) :
  processDatagramData (byte_of_Z (PacketType_value AUTH_RESPONSE_SUCCESS) :: body) c
  = handleAuthResponseSuccess body c.
Proof. reflexivity. Qed.

Lemma dispatch_auth_response_error (body : list byte) (c : VoiceChatClient) :
  processDatagramData (byte_of_Z (PacketType_value AUTH_RESPONSE_ERROR) :: body) c
  = handleAuthResponseError body c.
Proof. reflexivity. Qed.

(** A notification packet fires its callback and changes nothing. *)
Lemma carries_dispatch (packet : list byte) (n : Notification) (c : VoiceChatClient) :
  carries packet n ->
  onUserJoined (events c) = true -> onUserLeft (events c) = true ->
  processDatagramData packet c = MkRun c [Fire (Notification_event n)] (Returned tt).
Proof.
  intros Hn Hj Hl. destruct Hn as [body user Hparse | payload Hlen].
  - rewrite dispatch_user_joined. unfold handleUserJoined.
    rewrite Hparse, fire_run, Hj. reflexivity.
  - rewrite dispatch_user_left. unfold handleUserLeft.
    apply Nat.leb_le in Hlen. rewrite Hlen, fire_run, Hl. reflexivity.
Qed.

Lemma notifications_dispatch (packets : list (list byte)) (ns : list Notification)
    (c : VoiceChatClient) :
  Forall2 carries packets ns ->
  onUserJoined (events c) = true -> onUserLeft (events c) = true ->
  readDatagrams_loop packets c
  = MkRun c (map (fun n => Fire (Notification_event n)) ns) (Returned tt).
Proof.
  intros Hall Hj Hl. induction Hall as [|packet n packets ns Hn _ IH].
  - reflexivity.
  - rewrite readDatagrams_loop_cons, (carries_dispatch packet n c Hn Hj Hl).
    cbn. rewrite IH. reflexivity.
Qed.

Lemma view_notifications (m : gmap Z RoomUser.t) (ns : list Notification) :
  foldl MembershipTracker.observe m (map (fun n => Fire (Notification_event n)) ns)
  = foldl notify m ns.
Proof.
  revert m. induction ns as [|n ns IH]; intros m.
  - reflexivity.
  - cbn [map foldl]. rewrite IH. destruct n; reflexivity.
Qed.

End Membership.

(** C3, as the code has it: the client object keeps no membership map.
    A JOIN_ROOM_RESPONSE roster followed by USER_JOINED and USER_LEFT
    notifications fires onJoinedRoom, onUserJoined and onUserLeft, one per
    packet and in arrival order, and leaves every field unchanged; the map
    an observer keeps from those callbacks is the roster with the joined
    users added and the left identifiers removed, in that order; removing
    an absent identifier changes nothing; leaveRoom and close invoke no
    callback, so they do not touch the observer's map. *)
Theorem membership_follows_callbacks `{ProtobufCodec}
    (c : VoiceChatClient) (body : list byte) (roster : list RoomUser.t)
    (packets : list (list byte)) (ns : list Notification) :
  onJoinedRoom (events c) = true ->
  onUserJoined (events c) = true ->
  onUserLeft (events c) = true ->
  fromBinary_JoinRoomResponse body = Some (JoinRoomResponse.Build roster) ->
  Forall2 carries packets ns ->
  let run := readDatagrams
               ((byte_of_Z (PacketType_value JOIN_ROOM_RESPONSE) :: body) :: packets) c in
  run = MkRun c (Fire (EvJoinedRoom roster) :: map (fun n => Fire (Notification_event n)) ns)
          (Returned tt) /\
  MembershipTracker.view (effects run) = foldl notify (MembershipTracker.seed roster) ns /\
  (forall (id : Z) (m : gmap Z RoomUser.t),
      m !! id = None -> MembershipTracker.remove id m = m) /\
  (forall (c' : VoiceChatClient) (writer : WriterBehaviour),
      forallb (fun e => negb (is_fire e)) (effects (leaveRoom c')) = true /\
      forallb (fun e => negb (is_fire e)) (effects (close writer c')) = true /\
      MembershipTracker.view (effects run ++ effects (leaveRoom c'))
      = MembershipTracker.view (effects run) /\
      MembershipTracker.view (effects run ++ effects (close writer c'))
      = MembershipTracker.view (effects run)).
Proof.
  intros Hjr Hj Hl Hparse Hall run.
  assert (Hrun : run = MkRun c (Fire (EvJoinedRoom roster)
                                  :: map (fun n => Fire (Notification_event n)) ns)
                         (Returned tt)).
  { subst run. rewrite readDatagrams_is_loop, readDatagrams_loop_cons.
    rewrite dispatch_join_room_response. unfold handleJoinRoomResponse.
    rewrite Hparse, fire_run, Hjr. cbn.
    rewrite (notifications_dispatch packets ns c Hall Hj Hl). reflexivity. }
  split; [exact Hrun|]. rewrite Hrun. cbn [effects].
  split; [|split].
  - unfold MembershipTracker.view. cbn [foldl MembershipTracker.observe].
    apply view_notifications.
  - intros id m Hm. unfold MembershipTracker.remove. apply delete_id. exact Hm.
  - intros c' writer.
    assert (Hleave : effects (leaveRoom c') = []).
    { destruct c' as [w sid u k evs conn]. method_cases; reflexivity. }
    assert (Hclose : effects (close writer c') = [WriterClose; TransportClose]
                     \/ effects (close writer c') = [TransportClose]
                     \/ effects (close writer c') = [WriterClose]).
    { destruct c' as [w sid u k evs conn], writer. all: method_cases; auto. }
    rewrite Hleave, app_nil_r.
    repeat split.
    + destruct Hclose as [-> | [-> | ->]]; reflexivity.
    + unfold MembershipTracker.view. rewrite foldl_app.
      destruct Hclose as [-> | [-> | ->]]; reflexivity.
Qed.

Example seed_add_remove :
  MembershipTracker.remove 2
    (MembershipTracker.add user_C (MembershipTracker.seed [user_A; user_B]))
  = {[1 := user_A; 3 := user_C]}.
Proof. vm_compute. reflexivity. Qed.

Lemma membership_follows_callbacks_witness :
  let run := readDatagrams (H := Proto3.codec)
               [packet_roster_AB; packet_joined_C; packet_left_B] session_in_room in
  run = MkRun session_in_room
          [Fire (EvJoinedRoom [user_A; user_B]); Fire (EvUserJoined user_C);
           Fire (EvUserLeft 2)] (Returned tt) /\
  MembershipTracker.view (effects run) = {[1 := user_A; 3 := user_C]}.
Proof.
  assert (Hall : Forall2 (carries (H := Proto3.codec))
                   [packet_joined_C; packet_left_B] [UserJoined user_C; UserLeft 2]).
  { constructor; [|constructor; [|constructor]].
    - exact (carries_joined (H := Proto3.codec) (drop 1 packet_joined_C) user_C eq_refl).
    - exact (carries_left (H := Proto3.codec) (drop 1 packet_left_B) (le_n 8)). }
  destruct (membership_follows_callbacks (H := Proto3.codec) session_in_room
              (drop 1 packet_roster_AB) [user_A; user_B]
              [packet_joined_C; packet_left_B] [UserJoined user_C; UserLeft 2]
              eq_refl eq_refl eq_refl eq_refl Hall) as (Hrun & Hview & _).
  split.
  - exact Hrun.
  - etransitivity; [exact Hview|]. vm_compute. reflexivity.
Defined.

(** C3 as stated fails: after the roster [A, B] has arrived the client
    object is what it was before (no field records the roster), and
    leaving the room clears the room key and nothing else, without a
    callback: the membership an observer holds is still {A, B}. *)
Lemma membership_cleared_counterexample :
  let joined := readDatagrams (H := Proto3.codec) [packet_roster_AB] session_in_room in
  let left := leaveRoom (final joined) in
  final joined = session_in_room /\
  left = MkRun (set_currentRoomKey None session_in_room) [] (Returned tt) /\
  MembershipTracker.view (effects joined ++ effects left) = {[1 := user_A; 2 := user_B]} /\
  MembershipTracker.view (effects joined ++ effects left) <> ∅.
Proof.
  cbv zeta. split; [reflexivity|]. split; [reflexivity|].
  assert (Hview : MembershipTracker.view
                    (effects (readDatagrams (H := Proto3.codec) [packet_roster_AB]
                                session_in_room)
                     ++ effects (leaveRoom (final (readDatagrams (H := Proto3.codec)
                                                     [packet_roster_AB] session_in_room))))
                  = {[1 := user_A; 2 := user_B]}).
  { vm_compute. reflexivity. }
  split; [exact Hview|]. rewrite Hview.
  intros Hempty.
  assert (Hlook : ({[1 := user_A; 2 := user_B]} : gmap Z RoomUser.t) !! 1 = Some user_A)
    by reflexivity.
  rewrite Hempty in Hlook. discriminate.
Qed.

(** ** Authentication *)

Section Authentication.
Context `{ProtobufCodec}.

Lemma first_byte_is (first : byte) (t : PacketType) :
  (byte_to_Z first =? PacketType_value t) = true ->
  first = byte_of_Z (PacketType_value t).
Proof.
  intros Heq. apply Z.eqb_eq in Heq. rewrite <- Heq. symmetry. apply byte_of_Z_to_Z.
Qed.

(** Dispatch changes the session identifier only in the
    AUTH_RESPONSE_SUCCESS branch, and then to the identifier parsed. *)
Lemma processProtobufData_sessionId (data : list byte) (c : VoiceChatClient) :
  sessionId (final (processProtobufData data c)) = sessionId c \/
  exists body response,
    data = byte_of_Z (PacketType_value AUTH_RESPONSE_SUCCESS) :: body /\
    fromBinary_AuthResponseSuccess body = Some response /\
    sessionId (final (processProtobufData data c))
    = Some (AuthResponseSuccess.sessionId response).
Proof.
  destruct data as [|first messageData]; [left; reflexivity|].
  unfold processProtobufData.
  destruct (byte_to_Z first =? PacketType_value AUTH_RESPONSE_SUCCESS) eqn:Hfirst.
  - apply first_byte_is in Hfirst. subst first.
    unfold handleAuthResponseSuccess.
    destruct (fromBinary_AuthResponseSuccess messageData) as [response|] eqn:Hparse.
    + right. exists messageData, response.
      split; [reflexivity|]. split; [exact Hparse|].
      destruct c as [w sid u k evs conn]. method_cases; reflexivity.
    + left. reflexivity.
  - left. destruct c as [w sid u k evs conn]. method_cases; reflexivity.
Qed.

Lemma processDatagramData_sessionId (data : list byte) (c : VoiceChatClient) :
  sessionId (final (processDatagramData data c)) = sessionId c \/
  exists body response,
    data = byte_of_Z (PacketType_value AUTH_RESPONSE_SUCCESS) :: body /\
    fromBinary_AuthResponseSuccess body = Some response /\
    sessionId (final (processDatagramData data c))
    = Some (AuthResponseSuccess.sessionId response).
Proof.
  unfold processDatagramData. destruct (_ && _).
  - left. destruct c as [w sid u k evs conn]. method_cases; reflexivity.
  - apply processProtobufData_sessionId.
Qed.

(** Of everything that can happen to a client, only close (which
    clears it) and an AUTH_RESPONSE_SUCCESS packet change the session
    identifier. *)
Lemma sessionId_changes (a : Action) (c : VoiceChatClient) :
  sessionId (final (perform a c)) = sessionId c \/
  ((exists writer, a = CallClose writer) /\ sessionId (final (perform a c)) = None) \/
  exists body response,
    (a = Datagram (byte_of_Z (PacketType_value AUTH_RESPONSE_SUCCESS) :: body) \/
     exists chunks, a = Stream chunks /\
       concat chunks = byte_of_Z (PacketType_value AUTH_RESPONSE_SUCCESS) :: body) /\
    fromBinary_AuthResponseSuccess body = Some response /\
    sessionId (final (perform a c)) = Some (AuthResponseSuccess.sessionId response).
Proof.
  destruct a as [t|u|k| |d|writer|d|chunks|abruptly].
  - left. destruct c as [w sid u k evs conn], t; method_cases; reflexivity.
  - left. destruct c as [w sid u' k evs conn]; method_cases; reflexivity.
  - left. destruct c as [w sid u k' evs conn]; method_cases; reflexivity.
  - left. destruct c as [w sid u k evs conn]; method_cases; reflexivity.
  - left. destruct c as [w sid u k evs conn]; method_cases; reflexivity.
  - destruct c as [w sid u k evs conn], writer; method_cases;
      first [left; reflexivity | right; left; split; [eauto | reflexivity]].
  - rewrite perform_Datagram.
    destruct (processDatagramData_sessionId d c) as [Hsame | (body & r & -> & Hp & Hs)].
    + left. exact Hsame.
    + right. right. exists body, r. split; [left; reflexivity|]. split; assumption.
  - rewrite perform_Stream.
    destruct (processProtobufData_sessionId (concat chunks) c)
      as [Hsame | (body & r & Hd & Hp & Hs)].
    + left. exact Hsame.
    + right. right. exists body, r. split; [right; exists chunks; split; auto|].
      split; assumption.
  - left. destruct c as [w sid u k evs conn], abruptly; method_cases; reflexivity.
Qed.

Lemma handleAuthResponseSuccess_run (body : list byte) (id : Z) (c : VoiceChatClient) :
  fromBinary_AuthResponseSuccess body = Some (AuthResponseSuccess.Build id) ->
  handleAuthResponseSuccess body c
  = MkRun (set_sessionId (Some id) c)
      (if onAuthSuccess (events c) then [Fire (EvAuthSuccess id)] else [])
      (Returned tt).
Proof.
  intros Hparse. unfold handleAuthResponseSuccess. rewrite Hparse.
  unfold mbind, Method_bind. rewrite bind_run. cbn. rewrite fire_run. reflexivity.
Qed.

End Authentication.

(** C4: before the client is connected [authenticate] throws
    NotConnected and writes nothing; on a connected client it performs
    exactly one write, of the AUTH_REQUEST packet, and leaves the
    connection status, the session identifier and the room key as they
    were (only the username is recorded); the session identifier takes a
    value only when an AUTH_RESPONSE_SUCCESS packet is dispatched, namely
    the identifier the packet carries, and onAuthSuccess fires with it;
    an AUTH_RESPONSE_ERROR packet changes no field and fires onAuthError. *)
Theorem authenticate_and_auth_responses `{ProtobufCodec} :
  (forall (c : VoiceChatClient) (name : string),
      connected c = false ->
      authenticate name c = MkRun c [] (Thrown NotConnected)) /\
  (forall (c : VoiceChatClient) (name : string),
      reachable c -> connected c = true ->
      let run := authenticate name c in
      run = MkRun (set_username (Some name) c)
              [Write (byte_of_Z (PacketType_value AUTH_REQUEST)
                        :: toBinary_AuthRequest (AuthRequest.Build name EmptyString))]
              (Returned tt) /\
      username (final run) = Some name /\
      connected (final run) = connected c /\
      sessionId (final run) = sessionId c /\
      currentRoomKey (final run) = currentRoomKey c) /\
  (forall (a : Action) (c : VoiceChatClient) (id : Z),
      sessionId (final (perform a c)) = Some id -> sessionId c <> Some id ->
      exists body,
        (a = Datagram (byte_of_Z (PacketType_value AUTH_RESPONSE_SUCCESS) :: body) \/
         exists chunks, a = Stream chunks /\
           concat chunks = byte_of_Z (PacketType_value AUTH_RESPONSE_SUCCESS) :: body) /\
        fromBinary_AuthResponseSuccess body = Some (AuthResponseSuccess.Build id)) /\
  (forall (c : VoiceChatClient) (body : list byte) (id : Z),
      fromBinary_AuthResponseSuccess body = Some (AuthResponseSuccess.Build id) ->
      let run :=
        processDatagramData (byte_of_Z (PacketType_value AUTH_RESPONSE_SUCCESS) :: body) c in
      run = MkRun (set_sessionId (Some id) c)
              (if onAuthSuccess (events c) then [Fire (EvAuthSuccess id)] else [])
              (Returned tt) /\
      sessionId (final run) = Some id /\
      connected (final run) = connected c /\
      username (final run) = username c /\
      currentRoomKey (final run) = currentRoomKey c /\
      datagramWriter (final run) = datagramWriter c) /\
  (forall (c : VoiceChatClient) (body : list byte) (errorType : AuthResponseError_Type),
      fromBinary_AuthResponseError body = Some (AuthResponseError.Build errorType) ->
      processDatagramData (byte_of_Z (PacketType_value AUTH_RESPONSE_ERROR) :: body) c
      = MkRun c (if onAuthError (events c) then [Fire (EvAuthError errorType)] else [])
          (Returned tt)).
Proof.
  split; [|split; [|split; [|split]]].
  - intros c name Hconn. unfold authenticate, mbind, Method_bind, bind, this. cbn.
    rewrite Hconn. reflexivity.
  - intros c name Hr Hconn run.
    pose proof (connected_has_writer c Hr Hconn) as Hw.
    assert (Hrun : run = MkRun (set_username (Some name) c)
              [Write (byte_of_Z (PacketType_value AUTH_REQUEST)
                        :: toBinary_AuthRequest (AuthRequest.Build name EmptyString))]
              (Returned tt)).
    { subst run. destruct c as [w sid u k evs conn]. cbn in Hconn, Hw. subst conn w.
      reflexivity. }
    rewrite Hrun. repeat split.
  - intros a c id Hafter Hbefore.
    destruct (sessionId_changes a c) as [Hsame | [[_ Hnone] | (body & r & Ha & Hp & Hs)]].
    + congruence.
    + congruence.
    + exists body. split; [exact Ha|]. rewrite Hp. destruct r as [sid]. cbn in Hs.
      congruence.
  - intros c body id Hparse run. subst run.
    rewrite dispatch_auth_response_success, (handleAuthResponseSuccess_run body id c Hparse).
    repeat split.
  - intros c body errorType Hparse. rewrite dispatch_auth_response_error.
    unfold handleAuthResponseError. rewrite Hparse. cbn. apply fire_run.
Qed.

Lemma authenticate_and_auth_responses_witness :
  authenticate (H := Proto3.codec) "alice" (new_VoiceChatClient all_callbacks)
  = MkRun (new_VoiceChatClient all_callbacks) [] (Thrown NotConnected) /\
  authenticate (H := Proto3.codec) "alice" session_connected
  = MkRun (set_username (Some "alice") session_connected)
      [Write [x00; x0a; x05; x61; x6c; x69; x63; x65]] (Returned tt) /\
  username (final (authenticate (H := Proto3.codec) "alice" session_connected))
  = Some "alice"%string /\
  sessionId (final (authenticate (H := Proto3.codec) "alice" session_connected)) = None /\
  (exists body,
      fromBinary_AuthResponseSuccess (ProtobufCodec := Proto3.codec) body
      = Some (AuthResponseSuccess.Build 42)) /\
  processDatagramData (H := Proto3.codec) [x01; x08; x2a] session_connected
  = MkRun (set_sessionId (Some 42) session_connected) [Fire (EvAuthSuccess 42)]
      (Returned tt) /\
  sessionId (final (processDatagramData (H := Proto3.codec) [x01; x08; x2a]
                      session_connected)) = Some 42 /\
  processDatagramData (H := Proto3.codec) [x02; x08; x01] session_connected
  = MkRun session_connected [Fire (EvAuthError ALREADY_LOGGED_IN)] (Returned tt).
Proof.
  destruct (authenticate_and_auth_responses (H := Proto3.codec))
    as (Hbefore & Hsend & Honly & Hsuccess & Herror).
  destruct (Hsend session_connected "alice" session_connected_reachable eq_refl)
    as (Hrun & Hname & _ & Hsid & _).
  destruct (Hsuccess session_connected [x08; x2a] 42 eq_refl) as (Hstored & Hheld & _).
  split; [|split; [|split; [|split; [|split; [|split; [|split]]]]]].
  - exact (Hbefore (new_VoiceChatClient all_callbacks) "alice" eq_refl).
  - exact Hrun.
  - exact Hname.
  - exact Hsid.
  - destruct (Honly (Datagram [x01; x08; x2a]) session_connected 42 eq_refl)
      as (body & _ & Hparse).
    + discriminate.
    + exists body. exact Hparse.
  - exact Hstored.
  - exact Hheld.
  - exact (Herror session_connected [x08; x01] ALREADY_LOGGED_IN eq_refl).
Defined.

(** ** Joining a room *)

(** C5, as the code has it: [joinRoom] throws NotConnected on a client
    that is not connected and NotAuthenticated on a connected client that
    holds no non-zero session identifier, in both cases writing nothing
    and changing no field; on a connected, authenticated client it records
    the room key at once and performs exactly one write, of the
    JOIN_ROOM_REQUEST packet; a JOIN_ROOM_RESPONSE packet fires
    onJoinedRoom with the roster it carries and changes no field. *)
Theorem joinRoom_and_join_response `{ProtobufCodec} :
  (forall (c : VoiceChatClient) (key : string),
      connected c = false ->
      joinRoom key c = MkRun c [] (Thrown NotConnected)) /\
  (forall (c : VoiceChatClient) (key : string),
      connected c = true -> truthy_bigint (sessionId c) = false ->
      joinRoom key c = MkRun c [] (Thrown NotAuthenticated)) /\
  (forall (c : VoiceChatClient) (key : string),
      reachable c -> is_authenticated c ->
      let run := joinRoom key c in
      run = MkRun (set_currentRoomKey (Some key) c)
              [Write (byte_of_Z (PacketType_value JOIN_ROOM_REQUEST)
                        :: toBinary_JoinRoomRequest (JoinRoomRequest.Build key))]
              (Returned tt) /\
      currentRoomKey (final run) = Some key /\
      connected (final run) = connected c /\
      sessionId (final run) = sessionId c /\
      username (final run) = username c /\
      datagramWriter (final run) = datagramWriter c) /\
  (forall (c : VoiceChatClient) (body : list byte) (roster : list RoomUser.t),
      fromBinary_JoinRoomResponse body = Some (JoinRoomResponse.Build roster) ->
      processDatagramData (byte_of_Z (PacketType_value JOIN_ROOM_RESPONSE) :: body) c
      = MkRun c (if onJoinedRoom (events c) then [Fire (EvJoinedRoom roster)] else [])
          (Returned tt)).
Proof.
  split; [|split; [|split]].
  - intros c key Hconn. unfold joinRoom, mbind, Method_bind, bind, this. cbn.
    rewrite Hconn. reflexivity.
  - intros c key Hconn Hsid. unfold joinRoom, mbind, Method_bind, bind, this. cbn.
    rewrite Hconn, Hsid. reflexivity.
  - intros c key Hr [Hconn Hsid] run.
    pose proof (connected_has_writer c Hr Hconn) as Hw.
    assert (Hrun : run = MkRun (set_currentRoomKey (Some key) c)
              [Write (byte_of_Z (PacketType_value JOIN_ROOM_REQUEST)
                        :: toBinary_JoinRoomRequest (JoinRoomRequest.Build key))]
              (Returned tt)).
    { subst run. destruct c as [w sid u k evs conn]. cbn in Hconn, Hsid, Hw. subst conn w.
      unfold joinRoom, mbind, Method_bind, bind, this. cbn. rewrite Hsid. reflexivity. }
    rewrite Hrun. repeat split.
  - intros c body roster Hparse. rewrite dispatch_join_room_response.
    unfold handleJoinRoomResponse. rewrite Hparse. cbn. apply fire_run.
Qed.

Lemma session_authenticated_reachable : reachable (H := Proto3.codec) session_authenticated.
Proof.
  unfold session_authenticated, session_connected.
  repeat apply perform_all_reachable. constructor.
Qed.

Lemma joinRoom_and_join_response_witness :
  joinRoom (H := Proto3.codec) "lobby" (new_VoiceChatClient all_callbacks)
  = MkRun (new_VoiceChatClient all_callbacks) [] (Thrown NotConnected) /\
  joinRoom (H := Proto3.codec) "lobby" session_connected
  = MkRun session_connected [] (Thrown NotAuthenticated) /\
  joinRoom (H := Proto3.codec) "lobby" session_authenticated
  = MkRun {| datagramWriter := Some DatagramWriter; sessionId := Some 42;
             username := Some "alice"; currentRoomKey := Some "lobby";
             events := all_callbacks; connected := true |}
      [Write [x03; x0a; x05; x6c; x6f; x62; x62; x79]] (Returned tt) /\
  currentRoomKey session_authenticated = None /\
  currentRoomKey (final (joinRoom (H := Proto3.codec) "lobby" session_authenticated))
  = Some "lobby"%string /\
  processDatagramData (H := Proto3.codec) packet_roster_AB session_in_room
  = MkRun session_in_room [Fire (EvJoinedRoom [user_A; user_B])] (Returned tt).
Proof.
  destruct (joinRoom_and_join_response (H := Proto3.codec))
    as (Hdisconnected & Hanonymous & Hjoin & Hresponse).
  destruct (Hjoin session_authenticated "lobby" session_authenticated_reachable
              (conj eq_refl eq_refl)) as (Hrun & Hkey & _).
  split; [|split; [|split; [|split; [|split]]]].
  - exact (Hdisconnected (new_VoiceChatClient all_callbacks) "lobby" eq_refl).
  - exact (Hanonymous session_connected "lobby" eq_refl eq_refl).
  - exact Hrun.
  - reflexivity.
  - exact Hkey.
  - exact (Hresponse session_in_room (drop 1 packet_roster_AB) [user_A; user_B] eq_refl).
Defined.

(** C5 as stated fails twice: a [joinRoom] on a client that is not
    connected throws NotConnected, not NotAuthenticated; and a
    JOIN_ROOM_RESPONSE arriving at an authenticated client that recorded
    no room key changes nothing, so the client is still not in a room
    ([sendVoiceData] and [leaveRoom] throw NotInRoom). *)
Lemma joinRoom_counterexample :
  outcome (joinRoom (H := Proto3.codec) "lobby" (new_VoiceChatClient all_callbacks))
  = Thrown NotConnected /\
  outcome (joinRoom (H := Proto3.codec) "lobby" (new_VoiceChatClient all_callbacks))
  <> Thrown NotAuthenticated /\
  is_authenticated session_authenticated /\
  let after := final (processDatagramData (H := Proto3.codec) packet_roster_AB
                        session_authenticated) in
  after = session_authenticated /\
  currentRoomKey after = None /\
  ~ is_in_room after /\
  outcome (sendVoiceData [x01] after) = Thrown NotInRoom /\
  outcome (leaveRoom after) = Thrown NotInRoom.
Proof.
  split; [reflexivity|]. split; [discriminate|]. split; [split; reflexivity|].
  cbv zeta. split; [reflexivity|]. split; [reflexivity|].
  split; [|split; reflexivity].
  intros (_ & _ & Hroom). vm_compute in Hroom. discriminate.
Qed.

(** ** Classifying datagrams *)

Section Classification.
Context `{ProtobufCodec}.

Lemma processDatagramData_short_voice (rest : list byte) (c : VoiceChatClient) :
  (length rest < 8)%nat ->
  processDatagramData (xff :: rest) c = MkRun c [] (Returned tt).
Proof.
  intros Hlen. rewrite processDatagramData_voice.
  apply Nat.leb_gt in Hlen. rewrite Hlen. reflexivity.
Qed.

(** A first byte that is none of the five server-to-client types ends
    in the [default] branch of the switch. *)
Lemma processProtobufData_unknown (first : byte) (rest : list byte)
    (c : VoiceChatClient) :
  ~ In (byte_to_Z first)
      [PacketType_value AUTH_RESPONSE_SUCCESS; PacketType_value AUTH_RESPONSE_ERROR;
       PacketType_value JOIN_ROOM_RESPONSE; PacketType_value USER_JOINED;
       PacketType_value USER_LEFT] ->
  processProtobufData (first :: rest) c
  = MkRun c [Console (WarnUnknownPacketType (byte_to_Z first))] (Returned tt).
Proof.
  intros Hnot. unfold processProtobufData.
  repeat match goal with
  | |- context [byte_to_Z first =? ?v] =>
      destruct (Z.eqb_spec (byte_to_Z first) v) as [Heq|_];
        [exfalso; apply Hnot; rewrite Heq; cbn; tauto|]
  end.
  reflexivity.
Qed.

End Classification.

(** C6: a datagram whose first byte is one of 0..6 goes to control
    dispatch and never fires onVoiceData; a datagram whose first byte is
    0xFF and whose length is below 9 is dropped: nothing fires, nothing is
    logged, no field changes, and it is not handed to control dispatch
    (which would have logged an unknown packet type). *)
Theorem datagram_classification `{ProtobufCodec} :
  (forall (first : byte) (rest : list byte) (c : VoiceChatClient),
      0 <= byte_to_Z first <= 6 ->
      processDatagramData (first :: rest) c = processProtobufData (first :: rest) c /\
      forallb (fun e => negb (is_voice_event e))
        (effects (processDatagramData (first :: rest) c)) = true) /\
  (forall (data : list byte) (c : VoiceChatClient),
      byte_to_Z <$> data !! 0%nat = Some 255 -> (length data < 9)%nat ->
      processDatagramData data c = MkRun c [] (Returned tt) /\
      processProtobufData data c
      = MkRun c [Console (WarnUnknownPacketType 255)] (Returned tt)).
Proof.
  split.
  - intros first rest c Hfirst.
    rewrite processDatagramData_control by lia.
    split; [reflexivity|]. apply processProtobufData_no_voice.
  - intros data c Hhead Hlen.
    destruct data as [|first rest]; [discriminate|].
    cbn in Hhead. injection Hhead as Hfirst.
    assert (first = xff) as ->.
    { rewrite <- (byte_of_Z_to_Z first), Hfirst. reflexivity. }
    cbn [length] in Hlen. split.
    + apply processDatagramData_short_voice. lia.
    + apply processProtobufData_unknown. cbn. intuition discriminate.
Qed.

Lemma datagram_classification_witness :
  processDatagramData (H := Proto3.codec) [x06; x01; x02] session_in_room
  = processProtobufData (H := Proto3.codec) [x06; x01; x02] session_in_room /\
  processDatagramData (H := Proto3.codec)
    [xff; x00; x00; x00; x00; x00; x00; x2a] session_in_room
  = MkRun session_in_room [] (Returned tt).
Proof.
  destruct (datagram_classification (H := Proto3.codec)) as (Hcontrol & Hshort).
  split.
  - refine (proj1 (Hcontrol x06 [x01; x02] session_in_room _)). vm_compute.
    split; discriminate.
  - refine (proj1 (Hshort [xff; x00; x00; x00; x00; x00; x00; x2a] session_in_room
                     eq_refl _)).
    vm_compute. repeat constructor.
Defined.

(** ** Closing *)




(** ** Malformed and unknown control packets *)

(** C8: an empty control payload is dropped, and a control payload whose
    first byte is none of the five server-to-client packet types is
    dropped with a console warning; in both cases dispatch returns
    normally, no callback fires and no field changes, on the datagram
    path and on the stream path alike, and the datagram loop goes on with
    the units that follow. *)
Theorem malformed_control_packets_are_dropped `{ProtobufCodec} :
  (forall c : VoiceChatClient,
      processProtobufData [] c = MkRun c [] (Returned tt) /\
      perform (Datagram []) c = MkRun c [] (Returned tt) /\
      perform (Stream []) c = MkRun c [] (Returned tt)) /\
  (forall (first : byte) (rest : list byte) (c : VoiceChatClient),
      ~ In (byte_to_Z first)
          [PacketType_value AUTH_RESPONSE_SUCCESS; PacketType_value AUTH_RESPONSE_ERROR;
           PacketType_value JOIN_ROOM_RESPONSE; PacketType_value USER_JOINED;
           PacketType_value USER_LEFT] ->
      let dropped :=
        MkRun c [Console (WarnUnknownPacketType (byte_to_Z first))] (Returned tt) in
      processProtobufData (first :: rest) c = dropped /\
      perform (Stream [first :: rest]) c = dropped /\
      (byte_to_Z first <> 255 -> perform (Datagram (first :: rest)) c = dropped) /\
      filter is_fire (effects dropped) = [] /\
      (byte_to_Z first <> 255 ->
       forall later : list (list byte),
         final (readDatagrams ((first :: rest) :: later) c) = final (readDatagrams later c) /\
         effects (readDatagrams ((first :: rest) :: later) c)
         = Console (WarnUnknownPacketType (byte_to_Z first))
             :: effects (readDatagrams later c) /\
         outcome (readDatagrams ((first :: rest) :: later) c) = Returned tt)) /\
  (forall (later : list (list byte)) (c : VoiceChatClient),
      readDatagrams ([] :: later) c = readDatagrams later c).
Proof.
  split; [|split].
  - intros c. split; [reflexivity|]. split.
    + rewrite perform_Datagram. reflexivity.
    + rewrite perform_Stream. reflexivity.
  - intros first rest c Hunknown dropped. subst dropped.
    pose proof (processProtobufData_unknown first rest c Hunknown) as Hdrop.
    split; [exact Hdrop|]. split; [|split; [|split]].
    + rewrite perform_Stream. cbn [concat]. rewrite app_nil_r. exact Hdrop.
    + intros Hnot. rewrite perform_Datagram, processDatagramData_control by exact Hnot.
      exact Hdrop.
    + reflexivity.
    + intros Hnot later.
      rewrite !readDatagrams_is_loop, readDatagrams_loop_cons.
      rewrite processDatagramData_control, Hdrop by exact Hnot.
      cbn. repeat split. apply readDatagrams_loop_returns.
  - intros later c. rewrite !readDatagrams_is_loop, readDatagrams_loop_cons.
    change (processDatagramData [] c) with (MkRun c [] (Returned tt)). cbn.
    destruct (readDatagrams_loop later c); reflexivity.
Qed.

Lemma malformed_control_packets_are_dropped_witness :
  ~ In (byte_to_Z x07)
      [PacketType_value AUTH_RESPONSE_SUCCESS; PacketType_value AUTH_RESPONSE_ERROR;
       PacketType_value JOIN_ROOM_RESPONSE; PacketType_value USER_JOINED;
       PacketType_value USER_LEFT] /\
  processProtobufData (H := Proto3.codec) [x07; x01] session_in_room
  = MkRun session_in_room [Console (WarnUnknownPacketType 7)] (Returned tt) /\
  perform (H := Proto3.codec) (Datagram [x00; x0a; x01; x61]) session_in_room
  = MkRun session_in_room [Console (WarnUnknownPacketType 0)] (Returned tt).
Proof.
  destruct (malformed_control_packets_are_dropped (H := Proto3.codec)) as (_ & Hunknown & _).
  assert (H7 : ~ In (byte_to_Z x07)
      [PacketType_value AUTH_RESPONSE_SUCCESS; PacketType_value AUTH_RESPONSE_ERROR;
       PacketType_value JOIN_ROOM_RESPONSE; PacketType_value USER_JOINED;
       PacketType_value USER_LEFT]).
  { cbn. intuition discriminate. }
  assert (H0 : ~ In (byte_to_Z x00)
      [PacketType_value AUTH_RESPONSE_SUCCESS; PacketType_value AUTH_RESPONSE_ERROR;
       PacketType_value JOIN_ROOM_RESPONSE; PacketType_value USER_JOINED;
       PacketType_value USER_LEFT]).
  { cbn. intuition discriminate. }
  split; [exact H7|]. split.
  - exact (proj1 (Hunknown x07 [x01] session_in_room H7)).
  - refine (proj1 (proj2 (proj2 (Hunknown x00 [x0a; x01; x61] session_in_room H0))) _).
    cbn. discriminate.
Defined.

(** ** A session identifier of zero *)

(** C9: when the AUTH_RESPONSE_SUCCESS packet carries session identifier
    0, the identifier is stored and onAuthSuccess fires with 0, but the
    guards of [joinRoom], [leaveRoom] and [sendVoiceData] take the stored
    0 for an absent identifier: on the connected client each of them
    throws NotAuthenticated, writes nothing and changes no field. *)
Theorem zero_session_id_is_not_authenticated `{ProtobufCodec}
    (c : VoiceChatClient) (body : list byte) :
  connected c = true ->
  fromBinary_AuthResponseSuccess body = Some (AuthResponseSuccess.Build 0) ->
  let run :=
    processDatagramData (byte_of_Z (PacketType_value AUTH_RESPONSE_SUCCESS) :: body) c in
  let c' := final run in
  sessionId c' = Some 0 /\
  connected c' = true /\
  effects run = (if onAuthSuccess (events c) then [Fire (EvAuthSuccess 0)] else []) /\
  (forall key : string, joinRoom key c' = MkRun c' [] (Thrown NotAuthenticated)) /\
  leaveRoom c' = MkRun c' [] (Thrown NotAuthenticated) /\
  (forall data : list byte, sendVoiceData data c' = MkRun c' [] (Thrown NotAuthenticated)).
Proof.
  intros Hconn Hparse run c'. subst c' run.
  rewrite dispatch_auth_response_success, (handleAuthResponseSuccess_run body 0 c Hparse).
  destruct c as [w sid u k evs conn]. cbn in Hconn. subst conn.
  cbn [final effects set_sessionId sessionId connected events datagramWriter
       username currentRoomKey].
  split; [reflexivity|]. split; [reflexivity|]. split; [reflexivity|].
  split; [intros key; reflexivity|]. split; [reflexivity|].
  intros data. reflexivity.
Qed.

Lemma zero_session_id_is_not_authenticated_witness :
  let c' := final (processDatagramData (H := Proto3.codec) [x01] session_connected) in
  sessionId c' = Some 0 /\
  effects (processDatagramData (H := Proto3.codec) [x01] session_connected)
  = [Fire (EvAuthSuccess 0)] /\
  joinRoom (H := Proto3.codec) "lobby" c' = MkRun c' [] (Thrown NotAuthenticated) /\
  leaveRoom c' = MkRun c' [] (Thrown NotAuthenticated) /\
  sendVoiceData [x01; x02; x03] c' = MkRun c' [] (Thrown NotAuthenticated).
Proof.
  destruct (zero_session_id_is_not_authenticated (H := Proto3.codec) session_connected []
              eq_refl eq_refl) as (Hsid & _ & Hfire & Hjoin & Hleave & Hsend).
  cbv zeta. split; [exact Hsid|]. split; [exact Hfire|].
  split; [exact (Hjoin "lobby")|]. split; [exact Hleave|]. exact (Hsend [x01; x02; x03]).
Defined.

(** ** USER_LEFT *)

(** C10: a USER_LEFT payload of at least 8 bytes fires onUserLeft with
    the big-endian value of the whole payload, which is the value of the
    first 8 bytes shifted left by the extra bytes plus the value of the
    extra bytes (so it differs from the value of the first 8 bytes
    whenever that is non-zero and there are extra bytes); a shorter
    payload is dropped without a callback or a log entry; the handler
    returns normally in both cases and changes no field. *)
Theorem handleUserLeft_reads_whole_payload `{ProtobufCodec}
    (payload : list byte) (c : VoiceChatClient) :
  ((8 <= length payload)%nat ->
   handleUserLeft payload c
   = MkRun c (if onUserLeft (events c)
              then [Fire (EvUserLeft (bytesToBigInt payload))] else [])
       (Returned tt) /\
   bytesToBigInt payload
   = bytesToBigInt (take 8 payload) * 256 ^ Z.of_nat (length payload - 8)
     + bytesToBigInt (drop 8 payload) /\
   ((8 < length payload)%nat -> 0 < bytesToBigInt (take 8 payload) ->
    bytesToBigInt payload <> bytesToBigInt (take 8 payload))) /\
  ((length payload < 8)%nat ->
   handleUserLeft payload c = MkRun c [] (Returned tt)) /\
  processDatagramData (byte_of_Z (PacketType_value USER_LEFT) :: payload) c
  = handleUserLeft payload c /\
  outcome (handleUserLeft payload c) = Returned tt /\
  final (handleUserLeft payload c) = c.
Proof.
  assert (Hlong : (8 <= length payload)%nat ->
            handleUserLeft payload c
            = MkRun c (if onUserLeft (events c)
                       then [Fire (EvUserLeft (bytesToBigInt payload))] else [])
                (Returned tt)).
  { intros Hlen. unfold handleUserLeft. apply Nat.leb_le in Hlen.
    rewrite Hlen. apply fire_run. }
  assert (Hshort : (length payload < 8)%nat ->
            handleUserLeft payload c = MkRun c [] (Returned tt)).
  { intros Hlen. unfold handleUserLeft. apply Nat.leb_gt in Hlen.
    rewrite Hlen. reflexivity. }
  assert (Hsplit : bytesToBigInt payload
            = bytesToBigInt (take 8 payload) * 256 ^ Z.of_nat (length payload - 8)
              + bytesToBigInt (drop 8 payload)).
  { rewrite <- (take_drop 8 payload) at 1.
    rewrite bytesToBigInt_app, length_drop. reflexivity. }
  split; [|split; [|split; [|split]]].
  - intros Hlen. split; [exact (Hlong Hlen)|]. split; [exact Hsplit|].
    intros Hextra Hpos. rewrite Hsplit.
    pose proof (bytesToBigInt_range (drop 8 payload)) as Hlow.
    assert (Hpow : 256 <= 256 ^ Z.of_nat (length payload - 8)).
    { replace (Z.of_nat (length payload - 8))
        with (Z.succ (Z.of_nat (length payload - 9))) by lia.
      rewrite Z.pow_succ_r by lia.
      pose proof (Z.pow_pos_nonneg 256 (Z.of_nat (length payload - 9))). nia. }
    nia.
  - exact Hshort.
  - apply dispatch_user_left.
  - destruct (Nat.le_gt_cases 8 (length payload)) as [Hlen|Hlen].
    + rewrite (Hlong Hlen). reflexivity.
    + rewrite (Hshort Hlen). reflexivity.
  - destruct (Nat.le_gt_cases 8 (length payload)) as [Hlen|Hlen].
    + rewrite (Hlong Hlen). reflexivity.
    + rewrite (Hshort Hlen). reflexivity.
Qed.

Lemma handleUserLeft_reads_whole_payload_witness :
  handleUserLeft [x00; x00; x00; x00; x00; x00; x00; x2a; x07] session_in_room
  = MkRun session_in_room [Fire (EvUserLeft 10759)] (Returned tt) /\
  bytesToBigInt (take 8 [x00; x00; x00; x00; x00; x00; x00; x2a; x07]) = 42 /\
  handleUserLeft [x00; x00; x00; x2a] session_in_room
  = MkRun session_in_room [] (Returned tt).
Proof.
  split; [|split].
  - refine (proj1 (proj1 (handleUserLeft_reads_whole_payload (H := Proto3.codec)
                            [x00; x00; x00; x00; x00; x00; x00; x2a; x07]
                            session_in_room) _)).
    vm_compute. repeat constructor.
  - reflexivity.
  - refine (proj1 (proj2 (handleUserLeft_reads_whole_payload (H := Proto3.codec)
                            [x00; x00; x00; x2a] session_in_room)) _).
    vm_compute. repeat constructor.
Defined.

(** ** Building packets with typed arrays *)

Lemma Uint8Array_set_fits (before source after : list byte) (filler : list byte) :
  length filler = length source ->
  Uint8Array_set (before ++ filler ++ after) source (length before)
  = Some (before ++ source ++ after).
Proof.
  intros Hlen. unfold Uint8Array_set.
  assert (Hfit : (length before + length source <=? length (before ++ filler ++ after))%nat
                 = true).
  { apply Nat.leb_le. rewrite !length_app. lia. }
  rewrite Hfit, take_app_length. f_equal. f_equal. f_equal.
  rewrite drop_app_add', <- Hlen by reflexivity. apply drop_app_length.
Qed.

(** Both senders allocate [length + 1] bytes, store the tag at index 0
    and copy the payload at offset 1: the copy always fits, and the packet
    is the tag followed by the payload, which is how [sendVoiceData] and
    [sendProtobufMessage] are written above. *)
Theorem built_packets_are_tag_then_payload (packetType : PacketType) (data : list byte) :
  build_voiceDataPacket data = Some (xff :: data) /\
  build_packet packetType data = Some (byte_of_Z (PacketType_value packetType) :: data) /\
  (forall c : VoiceChatClient,
      written (effects (sendVoiceData data c)) = []
      \/ Some (written (effects (sendVoiceData data c)))
         = (fun packet => [packet]) <$> build_voiceDataPacket data).
Proof.
  assert (Hbuild : forall tag : Z,
            Uint8Array_set (Uint8Array_store (Uint8Array_new (length data + 1)) 0 tag) data 1
            = Some (byte_of_Z tag :: data)).
  { intros tag. unfold Uint8Array_new, Uint8Array_store.
    rewrite Nat.add_1_r. cbn [replicate insert list_insert].
    pose proof (Uint8Array_set_fits [byte_of_Z tag] data [] (replicate (length data) x00))
      as Hset.
    cbn [length app] in Hset. rewrite !app_nil_r in Hset.
    apply Hset, length_replicate. }
  split; [exact (Hbuild 255)|]. split; [exact (Hbuild (PacketType_value packetType))|].
  intros c. unfold build_voiceDataPacket. rewrite (Hbuild 255).
  destruct c as [w sid u k evs conn]. method_cases; auto.
Qed.

Lemma combine_chunks_loop_fills (chunks : list (list byte)) (done : list byte) :
  combine_chunks_loop chunks (done ++ Uint8Array_new (length (concat chunks))) (length done)
  = Some (done ++ concat chunks).
Proof.
  revert done. induction chunks as [|chunk rest IH]; intros done.
  - cbn. reflexivity.
  - cbn [combine_chunks_loop concat]. unfold Uint8Array_new.
    rewrite length_app, replicate_add.
    rewrite (Uint8Array_set_fits done chunk _ (replicate (length chunk) x00))
      by apply length_replicate.
    cbn [mbind option_bind]. specialize (IH (done ++ chunk)).
    rewrite length_app, <- !app_assoc in IH. exact IH.
Qed.

Lemma totalLength_is_length_concat (chunks : list (list byte)) (acc : nat) :
  fold_left (fun acc chunk => (acc + length chunk)%nat) chunks acc
  = (acc + length (concat chunks))%nat.
Proof.
  revert acc. induction chunks as [|chunk rest IH]; intros acc.
  - cbn. lia.
  - cbn [fold_left concat]. rewrite IH, length_app. lia.
Qed.

(** The chunk loop of [readFromStream] never overruns the array it
    allocated, and what it dispatches is the chunks one after the other:
    the concatenation [readFromStream] is written with above.  Empty
    chunks contribute nothing, and no chunks give the empty payload. *)
Theorem combine_chunks_is_concat (chunks : list (list byte)) :
  combine_chunks chunks = Some (concat chunks) /\
  (forall combinedData, combine_chunks chunks = Some combinedData ->
     length combinedData = sum_list (length <$> chunks)) /\
  combine_chunks (filter (fun chunk => chunk <> []) chunks) = combine_chunks chunks /\
  combine_chunks [] = Some [].
Proof.
  assert (Hall : forall cs : list (list byte), combine_chunks cs = Some (concat cs)).
  { intros cs. unfold combine_chunks.
    rewrite totalLength_is_length_concat. cbn [Nat.add].
    exact (combine_chunks_loop_fills cs []). }
  split; [apply Hall|]. split; [|split].
  - intros combinedData Hc. rewrite Hall in Hc. injection Hc as <-.
    induction chunks as [|chunk rest IH]; [reflexivity|].
    cbn [concat fmap list_fmap sum_list]. rewrite length_app, IH. reflexivity.
  - rewrite !Hall. f_equal.
    induction chunks as [|chunk rest IH]; [reflexivity|].
    rewrite filter_cons. destruct (decide (chunk <> [])) as [Hne|He].
    + cbn [concat]. rewrite IH. reflexivity.
    + rewrite IH. destruct chunk; [reflexivity|]. exfalso. apply He. discriminate.
  - reflexivity.
Qed.

Lemma combine_chunks_is_concat_witness :
  combine_chunks [[x04]; []; [x0a; x00]] = Some [x04; x0a; x00] /\
  length [x04; x0a; x00] = 3%nat.
Proof.
  destruct (combine_chunks_is_concat [[x04]; []; [x0a; x00]]) as (Hconcat & Hlen & _).
  split; [exact Hconcat|]. exact (Hlen [x04; x0a; x00] Hconcat).
Defined.

(** ** [bytesToBigInt] as a number system *)

Lemma big_endian_bytesToBigInt (bytes : list byte) :
  big_endian (length bytes) (bytesToBigInt bytes) = bytes.
Proof.
  induction bytes as [|b init IH] using rev_ind.
  - reflexivity.
  - rewrite length_app, Nat.add_1_r. cbn [length big_endian].
    rewrite bytesToBigInt_app. cbn [length].
    change (256 ^ Z.of_nat 1) with 256.
    change (bytesToBigInt [b]) with (Z.lor (Z.shiftl 0 8) (byte_to_Z b)).
    rewrite shift_or_byte by apply byte_to_Z_range.
    pose proof (byte_to_Z_range b) as Hb.
    replace ((bytesToBigInt init * 256 + (0 * 256 + byte_to_Z b)) / 256)
      with (bytesToBigInt init).
    2:{ apply (Z.div_unique _ 256 _ (byte_to_Z b)); lia. }
    rewrite IH. f_equal. f_equal.
    rewrite <- (byte_of_Z_to_Z b) at 2. unfold byte_of_Z.
    replace ((bytesToBigInt init * 256 + (0 * 256 + byte_to_Z b)) mod 256)
      with (byte_to_Z b mod 256); [reflexivity|].
    rewrite (Z.mod_small (byte_to_Z b)) by lia.
    apply (Z.mod_unique _ 256 (bytesToBigInt init)); lia.
Qed.

(** [bytesToBigInt] reads a byte sequence as a base-256 number, most
    significant byte first: the value is non-negative and below
    256^length; two sequences of the same length with the same value are
    the same sequence; leading zero bytes do not change the value, so
    sequences of different lengths can share a value. *)
Theorem bytesToBigInt_positional (bytes : list byte) :
  0 <= bytesToBigInt bytes < 256 ^ Z.of_nat (length bytes) /\
  (forall other : list byte,
      length other = length bytes -> bytesToBigInt other = bytesToBigInt bytes ->
      other = bytes) /\
  (forall zeros : nat, bytesToBigInt (replicate zeros x00 ++ bytes) = bytesToBigInt bytes) /\
  bytesToBigInt [] = 0.
Proof.
  split; [apply bytesToBigInt_range|]. split; [|split; [|reflexivity]].
  - intros other Hlen Hval.
    rewrite <- (big_endian_bytesToBigInt other), <- (big_endian_bytesToBigInt bytes).
    rewrite Hlen, Hval. reflexivity.
  - intros zeros. rewrite bytesToBigInt_app.
    assert (Hz : bytesToBigInt (replicate zeros x00) = 0).
    { induction zeros as [|n IH]; [reflexivity|].
      cbn [replicate]. rewrite bytesToBigInt_cons, IH. reflexivity. }
    rewrite Hz. lia.
Qed.

Lemma bytesToBigInt_positional_witness :
  big_endian 2 42 = [x00; x2a] /\
  bytesToBigInt [x00; x00; x2a] = bytesToBigInt [x2a].
Proof.
  destruct (bytesToBigInt_positional [x00; x2a]) as (_ & Hinj & _).
  destruct (bytesToBigInt_positional [x2a]) as (_ & _ & Hzeros & _).
  split.
  - exact (Hinj (big_endian 2 42) eq_refl eq_refl).
  - exact (Hzeros 2%nat).
Defined.

(** ** Connecting *)

(** [connect] has three outcomes.  When the transport becomes ready the
    client is connected and holds a writer, the read loops are started and
    onConnected fires; [authenticate] then writes its request.  When the
    transport fails to become ready, or [getWriter] throws, the client is
    left not connected, onConnectionError fires once and the error is
    rethrown, and [authenticate] then throws NotConnected.  In no case
    does [connect] touch the session identifier, the username or the
    room key. *)
Theorem connect_outcomes `{ProtobufCodec} (c : VoiceChatClient) (name : string) :
  let refused :=
    if onConnectionError (events c)
    then [Fire (EvConnectionError FailedToEstablish)] else [] in
  connect ReadyResolves c
  = MkRun (set_datagramWriter (Some DatagramWriter) (set_connected true c))
      ([GetWriter; StartReadLoops]
         ++ (if onConnected (events c) then [Fire EvConnected] else []))
      (Returned tt) /\
  connect ReadyRejects c = MkRun (set_connected false c) refused (Thrown TransportError) /\
  connect GetWriterThrows c
  = MkRun (set_connected false c) (GetWriter :: refused) (Thrown TransportError) /\
  authenticate name (final (connect ReadyResolves c))
  = MkRun (set_username (Some name) (final (connect ReadyResolves c)))
      [Write (byte_of_Z (PacketType_value AUTH_REQUEST)
                :: toBinary_AuthRequest (AuthRequest.Build name EmptyString))]
      (Returned tt) /\
  authenticate name (final (connect ReadyRejects c))
  = MkRun (final (connect ReadyRejects c)) [] (Thrown NotConnected) /\
  authenticate name (final (connect GetWriterThrows c))
  = MkRun (final (connect GetWriterThrows c)) [] (Thrown NotConnected) /\
  (forall t : TransportBehaviour,
      sessionId (final (connect t c)) = sessionId c /\
      username (final (connect t c)) = username c /\
      currentRoomKey (final (connect t c)) = currentRoomKey c).
Proof.
  destruct c as [w sid u k evs conn]. cbn [events].
  destruct (onConnected evs) eqn:Hok, (onConnectionError evs) eqn:Herr.
  all: assert (Hsuccess : connect ReadyResolves
                            {| datagramWriter := w; sessionId := sid; username := u;
                               currentRoomKey := k; events := evs; connected := conn |}
                          = MkRun {| datagramWriter := Some DatagramWriter; sessionId := sid;
                                     username := u; currentRoomKey := k; events := evs;
                                     connected := true |}
                              ([GetWriter; StartReadLoops]
                                 ++ (if onConnected evs then [Fire EvConnected] else []))
                              (Returned tt))
    by (method_unfold; cbn; rewrite Hok; reflexivity).
  all: assert (Hrejects : connect ReadyRejects
                            {| datagramWriter := w; sessionId := sid; username := u;
                               currentRoomKey := k; events := evs; connected := conn |}
                          = MkRun {| datagramWriter := w; sessionId := sid;
                                     username := u; currentRoomKey := k; events := evs;
                                     connected := false |}
                              (if onConnectionError evs
                               then [Fire (EvConnectionError FailedToEstablish)] else [])
                              (Thrown TransportError))
    by (method_unfold; cbn; rewrite Herr; reflexivity).
  all: assert (Hthrows : connect GetWriterThrows
                           {| datagramWriter := w; sessionId := sid; username := u;
                              currentRoomKey := k; events := evs; connected := conn |}
                         = MkRun {| datagramWriter := w; sessionId := sid;
                                    username := u; currentRoomKey := k; events := evs;
                                    connected := false |}
                             (GetWriter :: (if onConnectionError evs
                                            then [Fire (EvConnectionError FailedToEstablish)]
                                            else []))
                             (Thrown TransportError))
    by (method_unfold; cbn; rewrite Herr; reflexivity).
  all: rewrite Hsuccess, Hrejects, Hthrows, ?Hok, ?Herr; cbn [final].
  all: repeat (split; [reflexivity|]).
  all: intros t; destruct t; rewrite ?Hsuccess, ?Hrejects, ?Hthrows; repeat split.
Qed.

(** ** The guards of the operations *)





(** ** Leaving and rejoining a room *)

(** [leaveRoom] is local: it never writes to the transport and never
    invokes a callback.  In a room it clears the room key and nothing
    else; a second [leaveRoom] and any [sendVoiceData] then throw
    NotInRoom, while [joinRoom] still passes, since the session identifier
    is kept.  Outside a room it throws and changes nothing. *)
Theorem leaveRoom_is_local `{ProtobufCodec} (c : VoiceChatClient) :
  effects (leaveRoom c) = [] /\
  (is_in_room c ->
   let c' := final (leaveRoom c) in
   leaveRoom c = MkRun (set_currentRoomKey None c) [] (Returned tt) /\
   leaveRoom c' = MkRun c' [] (Thrown NotInRoom) /\
   (forall data, sendVoiceData data c' = MkRun c' [] (Thrown NotInRoom)) /\
   (forall key, reachable c ->
      joinRoom key c'
      = MkRun (set_currentRoomKey (Some key) c)
          [Write (byte_of_Z (PacketType_value JOIN_ROOM_REQUEST)
                    :: toBinary_JoinRoomRequest (JoinRoomRequest.Build key))]
          (Returned tt))) /\
  (~ is_in_room c ->
   final (leaveRoom c) = c /\ outcome (leaveRoom c) <> Returned tt).
Proof.
  split; [|split].
  - destruct c as [w sid u k evs conn]. method_cases; reflexivity.
  - intros (Hconn & Hsid & Hroom) c'. subst c'.
    assert (Hleave : leaveRoom c = MkRun (set_currentRoomKey None c) [] (Returned tt)).
    { unfold leaveRoom, mbind, Method_bind, bind, this. cbn.
      rewrite Hconn, Hsid, Hroom. reflexivity. }
    rewrite Hleave. cbn [final].
    split; [reflexivity|]. split; [|split].
    + unfold leaveRoom, mbind, Method_bind, bind, this. cbn.
      rewrite Hconn, Hsid. reflexivity.
    + intros data. unfold sendVoiceData, mbind, Method_bind, bind, this. cbn.
      rewrite Hconn, Hsid. reflexivity.
    + intros key Hr. pose proof (connected_has_writer c Hr Hconn) as Hw.
      destruct c as [w sid u k evs conn]. cbn in Hconn, Hsid, Hw. subst conn w.
      unfold joinRoom, mbind, Method_bind, bind, this. cbn. rewrite Hsid. reflexivity.
  - unfold is_in_room. destruct c as [w sid u k evs conn].
    cbn [connected sessionId currentRoomKey].
    unfold leaveRoom, mbind, Method_bind, bind, this.
    cbn [connected sessionId currentRoomKey].
    destruct conn, (truthy_bigint sid), (truthy_string k); cbn;
      intuition (try discriminate; try congruence).
Qed.

Lemma leaveRoom_is_local_witness :
  leaveRoom session_in_room = MkRun session_authenticated [] (Returned tt) /\
  leaveRoom session_authenticated = MkRun session_authenticated [] (Thrown NotInRoom) /\
  joinRoom (H := Proto3.codec) "hall" session_authenticated
  = MkRun (set_currentRoomKey (Some "hall") session_in_room)
      [Write [x03; x0a; x04; x68; x61; x6c; x6c]] (Returned tt) /\
  final (leaveRoom session_connected) = session_connected.
Proof.
  destruct (leaveRoom_is_local (H := Proto3.codec) session_in_room) as (_ & Hin & _).
  destruct (Hin (conj eq_refl (conj eq_refl eq_refl))) as (Hleave & Hagain & _ & Hjoin).
  destruct (leaveRoom_is_local (H := Proto3.codec) session_connected) as (_ & _ & Hout).
  split; [exact Hleave|]. split; [exact Hagain|]. split.
  - exact (Hjoin "hall" session_in_room_reachable).
  - refine (proj1 (Hout _)). intros (_ & Hsid & _). vm_compute in Hsid. discriminate.
Defined.

(** [joinRoom] accepts the empty room key: the request is written and
    the key recorded, but the guards of [sendVoiceData] and [leaveRoom]
    take the recorded empty key for no key, so the client is not in a room
    afterwards. *)
Theorem joinRoom_with_empty_key `{ProtobufCodec} (c : VoiceChatClient) :
  reachable c -> is_authenticated c ->
  let run := joinRoom EmptyString c in
  outcome run = Returned tt /\
  currentRoomKey (final run) = Some EmptyString /\
  written (effects run)
  = [byte_of_Z (PacketType_value JOIN_ROOM_REQUEST)
       :: toBinary_JoinRoomRequest (JoinRoomRequest.Build EmptyString)] /\
  ~ is_in_room (final run) /\
  leaveRoom (final run) = MkRun (final run) [] (Thrown NotInRoom) /\
  (forall data, sendVoiceData data (final run) = MkRun (final run) [] (Thrown NotInRoom)).
Proof.
  intros Hr [Hconn Hsid] run. subst run.
  pose proof (connected_has_writer c Hr Hconn) as Hw.
  destruct c as [w sid u k evs conn]. cbn in Hconn, Hsid, Hw. subst conn w.
  assert (Hrun : joinRoom EmptyString
                   {| datagramWriter := Some DatagramWriter; sessionId := sid;
                      username := u; currentRoomKey := k; events := evs;
                      connected := true |}
                 = MkRun {| datagramWriter := Some DatagramWriter; sessionId := sid;
                            username := u; currentRoomKey := Some EmptyString;
                            events := evs; connected := true |}
                     [Write (byte_of_Z (PacketType_value JOIN_ROOM_REQUEST)
                               :: toBinary_JoinRoomRequest
                                    (JoinRoomRequest.Build EmptyString))]
                     (Returned tt)).
  { unfold joinRoom, mbind, Method_bind, bind, this. cbn. rewrite Hsid. reflexivity. }
  rewrite Hrun. cbn [final effects outcome currentRoomKey].
  split; [reflexivity|]. split; [reflexivity|]. split; [reflexivity|].
  split; [|split].
  - intros (_ & _ & Hroom). cbn in Hroom. discriminate.
  - unfold leaveRoom, mbind, Method_bind, bind, this. cbn. rewrite Hsid. reflexivity.
  - intros data. unfold sendVoiceData, mbind, Method_bind, bind, this. cbn.
    rewrite Hsid. reflexivity.
Qed.

Lemma joinRoom_with_empty_key_witness :
  is_authenticated session_authenticated /\
  joinRoom (H := Proto3.codec) EmptyString session_authenticated
  = MkRun (set_currentRoomKey (Some EmptyString) session_authenticated)
      [Write [x03]] (Returned tt) /\
  outcome (sendVoiceData [x01]
             (final (joinRoom (H := Proto3.codec) EmptyString session_authenticated)))
  = Thrown NotInRoom.
Proof.
  assert (Hauth : is_authenticated session_authenticated) by (split; reflexivity).
  destruct (joinRoom_with_empty_key (H := Proto3.codec) session_authenticated
              session_authenticated_reachable Hauth) as (_ & _ & _ & _ & _ & Hsend).
  split; [exact Hauth|]. split; [reflexivity|].
  rewrite (Hsend [x01]). reflexivity.
Defined.

(** ** Voice frames and control packets on one channel *)

(** The packet types of [packet.proto] are pairwise distinct, lie in
    0..6 and survive being stored in a byte, so none is the voice marker.
    Hence every packet [authenticate] or [joinRoom] writes starts with its
    packet type and, handed to datagram dispatch, takes the control
    branch: it is never delivered as voice.  A client receiving its own
    kind of request logs an unknown packet type and changes nothing. *)
Theorem requests_are_never_voice `{ProtobufCodec} (c receiver : VoiceChatClient) :
  (forall t : PacketType,
      0 <= PacketType_value t <= 6 /\
      byte_to_Z (byte_of_Z (PacketType_value t)) = PacketType_value t) /\
  (forall t t' : PacketType, PacketType_value t = PacketType_value t' -> t = t') /\
  (forall (name key : string) (packet : list byte),
      In packet (written (effects (authenticate name c)))
      \/ In packet (written (effects (joinRoom key c))) ->
      exists (t : PacketType) (body : list byte),
        (t = AUTH_REQUEST \/ t = JOIN_ROOM_REQUEST) /\
        packet = byte_of_Z (PacketType_value t) :: body /\
        Some packet = build_packet t body /\
        processDatagramData packet receiver
        = MkRun receiver [Console (WarnUnknownPacketType (PacketType_value t))]
            (Returned tt)).
Proof.
  split; [|split].
  - intros t. destruct t; cbn; split; try lia; reflexivity.
  - intros t t'. destruct t, t'; cbn; intros Heq; try reflexivity; discriminate.
  - intros name key packet Hin.
    assert (Hbuild : forall t body,
              Some (byte_of_Z (PacketType_value t) :: body) = build_packet t body).
    { intros t body. unfold build_packet, Uint8Array_new, Uint8Array_store.
      rewrite Nat.add_1_r. cbn [replicate insert list_insert].
      pose proof (Uint8Array_set_fits [byte_of_Z (PacketType_value t)] body []
                    (replicate (length body) x00)) as Hset.
      cbn [length app] in Hset. rewrite !app_nil_r in Hset.
      symmetry. apply Hset, length_replicate. }
    destruct Hin as [Hin | Hin].
    + exists AUTH_REQUEST, (toBinary_AuthRequest (AuthRequest.Build name EmptyString)).
      split; [left; reflexivity|].
      assert (Hp : packet = byte_of_Z (PacketType_value AUTH_REQUEST)
                            :: toBinary_AuthRequest (AuthRequest.Build name EmptyString)).
      { revert Hin. destruct c as [w sid u k evs conn]. method_cases; cbn;
          intros Hin; try tauto. destruct Hin as [<- | []]. reflexivity. }
      subst packet. split; [reflexivity|]. split; [apply Hbuild|].
      rewrite processDatagramData_control by (cbn; discriminate).
      apply processProtobufData_unknown. cbn. intuition discriminate.
    + exists JOIN_ROOM_REQUEST, (toBinary_JoinRoomRequest (JoinRoomRequest.Build key)).
      split; [right; reflexivity|].
      assert (Hp : packet = byte_of_Z (PacketType_value JOIN_ROOM_REQUEST)
                            :: toBinary_JoinRoomRequest (JoinRoomRequest.Build key)).
      { revert Hin. destruct c as [w sid u k evs conn]. method_cases; cbn;
          intros Hin; try tauto. destruct Hin as [<- | []]. reflexivity. }
      subst packet. split; [reflexivity|]. split; [apply Hbuild|].
      rewrite processDatagramData_control by (cbn; discriminate).
      apply processProtobufData_unknown. cbn. intuition discriminate.
Qed.

Lemma requests_are_never_voice_witness :
  exists (t : PacketType) (body : list byte),
    (t = AUTH_REQUEST \/ t = JOIN_ROOM_REQUEST) /\
    [x00; x0a; x05; x61; x6c; x69; x63; x65] = byte_of_Z (PacketType_value t) :: body /\
    Some [x00; x0a; x05; x61; x6c; x69; x63; x65] = build_packet t body /\
    processDatagramData (H := Proto3.codec)
      [x00; x0a; x05; x61; x6c; x69; x63; x65] session_in_room
    = MkRun session_in_room [Console (WarnUnknownPacketType (PacketType_value t))]
        (Returned tt).
Proof.
  destruct (requests_are_never_voice (H := Proto3.codec) session_connected session_in_room)
    as (_ & _ & Hrequests).
  apply (Hrequests "alice" "lobby"). left. left. reflexivity.
Defined.

(** ** What inbound data can do *)

Section Inbound.
Context `{ProtobufCodec}.

(** A dispatched unit has at most one effect, a callback or a console
    entry. *)
Lemma processProtobufData_effects (data : list byte) (c : VoiceChatClient) :
  effects (processProtobufData data c) = []
  \/ (exists ev, effects (processProtobufData data c) = [Fire ev])
  \/ (exists entry, effects (processProtobufData data c) = [Console entry]).
Proof.
  destruct c as [w sid u k evs conn], data as [|first messageData];
    method_cases; eauto.
Qed.

Lemma processDatagramData_effects (data : list byte) (c : VoiceChatClient) :
  effects (processDatagramData data c) = []
  \/ (exists ev, effects (processDatagramData data c) = [Fire ev])
  \/ (exists entry, effects (processDatagramData data c) = [Console entry]).
Proof.
  unfold processDatagramData. destruct (_ && _).
  - destruct c as [w sid u k evs conn]. method_cases; eauto.
  - apply processProtobufData_effects.
Qed.

Lemma perform_all_cons (a : Action) (rest : list Action) (c : VoiceChatClient) :
  perform_all (a :: rest) c
  = let r := perform a c in
    let r' := perform_all rest (final r) in
    MkRun (final r') (effects r ++ effects r') (outcome r').
Proof.
  cbn [perform_all]. unfold mbind, Method_bind, bind, try_catch.
  destruct (perform a c) as [c1 effects1 [[]|e]]; cbn;
    destruct (perform_all rest c1); rewrite ?app_nil_r; reflexivity.
Qed.

End Inbound.

(** Datagram dispatch of a unit that starts with the voice marker never
    changes the client, never logs and always returns.  With fewer than 8
    bytes after the marker nothing happens; otherwise onVoiceData, when
    supplied, fires once with the first 8 bytes read as a number in
    [0, 2^64) and the remaining bytes as audio (none, when the unit has
    exactly 9 bytes).  Every frame [sendVoiceData] writes is such a unit,
    the marker followed by the caller's data. *)
Theorem voice_dispatch `{ProtobufCodec}
    (rest : list byte) (sender receiver : VoiceChatClient) :
  let run := processDatagramData (xff :: rest) receiver in
  final run = receiver /\
  outcome run = Returned tt /\
  ((length rest < 8)%nat -> effects run = []) /\
  (onVoiceData (events receiver) = false -> effects run = []) /\
  ((8 <= length rest)%nat -> onVoiceData (events receiver) = true ->
   exists (id : Z) (audio : list byte),
     effects run = [Fire (EvVoiceData id audio)] /\
     0 <= id < 2 ^ 64 /\
     rest = big_endian_u64 id ++ audio /\
     length audio = (length rest - 8)%nat) /\
  (forall frame : list byte,
      In frame (written (effects (sendVoiceData rest sender))) -> frame = xff :: rest).
Proof.
  intros run. subst run. rewrite processDatagramData_voice.
  destruct (Nat.leb_spec 8 (length rest)) as [Hlong | Hshort].
  - rewrite fire_run. cbn [final outcome effects].
    split; [reflexivity|]. split; [reflexivity|]. split; [lia|].
    split; [intros ->; reflexivity|]. split.
    + intros _ Hslot. rewrite Hslot.
      exists (bytesToBigInt (take 8 rest)), (drop 8 rest).
      assert (Hlen : length (take 8 rest) = 8%nat) by (rewrite length_take; lia).
      split; [reflexivity|]. split; [|split].
      * pose proof (bytesToBigInt_range (take 8 rest)) as Hr. rewrite Hlen in Hr.
        exact Hr.
      * unfold big_endian_u64. rewrite <- Hlen at 1.
        rewrite big_endian_bytesToBigInt. symmetry. apply take_drop.
      * apply length_drop.
    + intros frame. destruct sender as [w sid u k evs conn]. method_cases; cbn;
        intros Hin; try tauto. destruct Hin as [<- | []]. reflexivity.
  - cbn [final outcome effects].
    split; [reflexivity|]. split; [reflexivity|]. split; [reflexivity|].
    split; [reflexivity|]. split; [lia|].
    intros frame. destruct sender as [w sid u k evs conn]. method_cases; cbn;
      intros Hin; try tauto. destruct Hin as [<- | []]. reflexivity.
Qed.

Lemma voice_dispatch_witness :
  effects (processDatagramData (H := Proto3.codec) [xff; x01; x02] session_in_room) = [] /\
  exists (id : Z) (audio : list byte),
    effects (processDatagramData (H := Proto3.codec)
               [xff; x00; x00; x00; x00; x00; x00; x00; x2a] session_in_room)
    = [Fire (EvVoiceData id audio)] /\
    0 <= id < 2 ^ 64 /\
    [x00; x00; x00; x00; x00; x00; x00; x2a] = big_endian_u64 id ++ audio /\
    length audio = 0%nat.
Proof.
  split.
  - refine (proj1 (proj2 (proj2 (voice_dispatch (H := Proto3.codec) [x01; x02]
                                   session_in_room session_in_room))) _).
    vm_compute. repeat constructor.
  - refine (proj1 (proj2 (proj2 (proj2 (proj2
              (voice_dispatch (H := Proto3.codec)
                 [x00; x00; x00; x00; x00; x00; x00; x2a]
                 session_in_room session_in_room))))) _ eq_refl).
    vm_compute. repeat constructor.
Defined.

(** Whatever arrives, by datagram or by stream, dispatch returns
    normally, has at most one effect (a callback or a console entry),
    never writes to or closes the transport, and can change no field but
    the session identifier. *)
Theorem inbound_data_is_contained `{ProtobufCodec} (data : list byte) (c : VoiceChatClient) :
  (outcome (processDatagramData data c) = Returned tt /\
   final (processDatagramData data c)
   = set_sessionId (sessionId (final (processDatagramData data c))) c /\
   (length (effects (processDatagramData data c)) <= 1)%nat /\
   forallb (fun e => negb (touches_transport e)) (effects (processDatagramData data c))
   = true) /\
  (outcome (processProtobufData data c) = Returned tt /\
   final (processProtobufData data c)
   = set_sessionId (sessionId (final (processProtobufData data c))) c /\
   (length (effects (processProtobufData data c)) <= 1)%nat /\
   forallb (fun e => negb (touches_transport e)) (effects (processProtobufData data c))
   = true).
Proof.
  split.
  - destruct (processDatagramData_frame data c) as [Ho Hf].
    split; [exact Ho|]. split; [exact Hf|].
    destruct (processDatagramData_effects data c) as [-> | [[ev ->] | [entry ->]]];
      cbn; split; (lia || reflexivity).
  - destruct (processProtobufData_frame data c) as [Ho Hf].
    split; [exact Ho|]. split; [exact Hf|].
    destruct (processProtobufData_effects data c) as [-> | [[ev ->] | [entry ->]]];
      cbn; split; (lia || reflexivity).
Qed.

(** A stream is dispatched as one control payload, its chunks joined in
    order: how the bytes were split into chunks makes no difference.  The
    stream path has no voice branch: it never fires onVoiceData, and a
    payload that starts with the voice marker is logged as an unknown
    packet type and dropped. *)
Theorem stream_payloads `{ProtobufCodec} (chunks : list (list byte)) (c : VoiceChatClient) :
  readFromStream chunks c = processProtobufData (concat chunks) c /\
  (forall chunks' : list (list byte),
      concat chunks' = concat chunks -> readFromStream chunks' c = readFromStream chunks c) /\
  forallb (fun e => negb (is_voice_event e)) (effects (readFromStream chunks c)) = true /\
  (forall rest : list byte,
      concat chunks = xff :: rest ->
      readFromStream chunks c
      = MkRun c [Console (WarnUnknownPacketType 255)] (Returned tt)).
Proof.
  assert (Hstream : forall cs, readFromStream cs c = processProtobufData (concat cs) c).
  { intros cs. exact (perform_Stream cs c). }
  split; [apply Hstream|]. split; [|split].
  - intros chunks' Heq. rewrite !Hstream, Heq. reflexivity.
  - rewrite Hstream. apply processProtobufData_no_voice.
  - intros rest Heq. rewrite Hstream, Heq.
    apply processProtobufData_unknown. cbn. intuition discriminate.
Qed.

Lemma stream_payloads_witness :
  readFromStream (H := Proto3.codec) [[x01; x08]; [x2a]] session_connected
  = readFromStream (H := Proto3.codec) [[x01]; []; [x08; x2a]] session_connected /\
  readFromStream (H := Proto3.codec)
    [[xff; x00; x00; x00]; [x00; x00; x00; x00; x2a; x01]] session_in_room
  = MkRun session_in_room [Console (WarnUnknownPacketType 255)] (Returned tt).
Proof.
  split.
  - exact (proj1 (proj2 (stream_payloads (H := Proto3.codec) [[x01]; []; [x08; x2a]]
                           session_connected)) [[x01; x08]; [x2a]] eq_refl).
  - exact (proj2 (proj2 (proj2 (stream_payloads (H := Proto3.codec)
                                  [[xff; x00; x00; x00]; [x00; x00; x00; x00; x2a; x01]]
                                  session_in_room)))
             [x00; x00; x00; x00; x00; x00; x00; x2a; x01] eq_refl).
Defined.

Section ReaderEndings.
Context `{ProtobufCodec}.

Lemma readDatagrams_loop_events (incoming : list (list byte)) (c : VoiceChatClient) :
  events (final (readDatagrams_loop incoming c)) = events c.
Proof.
  revert c. induction incoming as [|value rest IH]; intros c.
  - reflexivity.
  - rewrite readDatagrams_loop_cons. cbn zeta. cbn [final]. rewrite IH.
    destruct (processDatagramData_frame value c) as [_ ->]. reflexivity.
Qed.

Lemma readDatagrams_until_run (incoming : list (list byte)) (ending : ReaderEnding)
    (c : VoiceChatClient) :
  readDatagrams_until incoming ending c
  = match ending with
    | ReaderDone => readDatagrams_loop incoming c
    | ReaderRejects =>
        MkRun (final (readDatagrams_loop incoming c))
          (effects (readDatagrams_loop incoming c)
             ++ (if onConnectionError (events c)
                 then [Fire (EvConnectionError ErrorReadingDatagrams)] else []))
          (Returned tt)
    end.
Proof.
  pose proof (readDatagrams_loop_returns incoming c) as Ho.
  pose proof (readDatagrams_loop_events incoming c) as He.
  unfold readDatagrams_until, try_catch, mbind, Method_bind, bind.
  destruct (readDatagrams_loop incoming c) as [c1 effects1 result].
  cbn in Ho, He. subst result. destruct ending; cbn.
  - rewrite app_nil_r. reflexivity.
  - rewrite fire_run, He, app_nil_r. reflexivity.
Qed.

Lemma readDatagrams_loop_app (first later : list (list byte)) (c : VoiceChatClient) :
  readDatagrams_loop (first ++ later) c
  = let r1 := readDatagrams_loop first c in
    let r2 := readDatagrams_loop later (final r1) in
    MkRun (final r2) (effects r1 ++ effects r2) (outcome r2).
Proof.
  revert c. induction first as [|value rest IH]; intros c.
  - cbn [app readDatagrams_loop]. cbn.
    destruct (readDatagrams_loop later c); reflexivity.
  - cbn [app]. rewrite !readDatagrams_loop_cons. cbn zeta.
    rewrite IH. cbn [final effects outcome]. rewrite app_assoc. reflexivity.
Qed.

End ReaderEndings.

(** The datagram loop is sequential: reading a batch and then going on
    to the end of the reader is reading their concatenation to that end.
    When the reader reports done the loop just stops; when [read()]
    rejects, the datagrams read before it stay dispatched and the catch
    block fires onConnectionError once, after their effects.  Either way
    the loop returns to its caller, and the datagrams themselves give at
    most one effect each. *)
Theorem readDatagrams_until_composes `{ProtobufCodec}
    (first later : list (list byte)) (ending : ReaderEnding) (c : VoiceChatClient) :
  let r1 := readDatagrams first c in
  let r2 := readDatagrams_until later ending (final r1) in
  readDatagrams_until (first ++ later) ending c
  = MkRun (final r2) (effects r1 ++ effects r2) (outcome r2) /\
  readDatagrams_until first ReaderDone c = readDatagrams first c /\
  readDatagrams_until first ReaderRejects c
  = MkRun (final r1)
      (effects r1 ++ (if onConnectionError (events c)
                      then [Fire (EvConnectionError ErrorReadingDatagrams)] else []))
      (Returned tt) /\
  outcome (readDatagrams_until first ending c) = Returned tt /\
  (length (effects (readDatagrams first c)) <= length first)%nat.
Proof.
  cbv zeta. rewrite !readDatagrams_is_loop, !readDatagrams_until_run.
  split; [|split; [reflexivity|split; [reflexivity|split]]].
  - rewrite readDatagrams_loop_app. cbn zeta.
    rewrite readDatagrams_loop_events.
    destruct ending; cbn [final effects outcome].
    + destruct (readDatagrams_loop later (final (readDatagrams_loop first c)));
        reflexivity.
    + rewrite app_assoc. reflexivity.
  - destruct ending; [apply readDatagrams_loop_returns | reflexivity].
  - revert c. induction first as [|value rest IH]; intros c.
    + cbn. lia.
    + rewrite readDatagrams_loop_cons. cbn zeta. cbn [effects length].
      specialize (IH (final (processDatagramData value c))).
      rewrite length_app.
      destruct (processDatagramData_effects value c) as [-> | [[ev ->] | [entry ->]]];
        cbn; lia.
Qed.

(** ** After the connection is gone *)

(** [close] returns normally exactly when no writer is held or the
    held writer's [close()] resolves, and then, whatever the client was,
    it is no longer connected: every operation throws NotConnected, writes
    nothing and changes nothing.  When the writer's [close()] rejects,
    [close] throws that error after the one call, with the client exactly
    as it was and the transport's [close()] not called. *)
Theorem closed_client_refuses_everything `{ProtobufCodec}
    (writer : WriterBehaviour) (c : VoiceChatClient) :
  let run := close writer c in
  (outcome run = Returned tt <-> datagramWriter c = None \/ writer = CloseResolves) /\
  (outcome run = Returned tt ->
   connected (final run) = false /\
   (forall name, authenticate name (final run) = MkRun (final run) [] (Thrown NotConnected)) /\
   (forall key, joinRoom key (final run) = MkRun (final run) [] (Thrown NotConnected)) /\
   leaveRoom (final run) = MkRun (final run) [] (Thrown NotConnected) /\
   (forall data, sendVoiceData data (final run)
                 = MkRun (final run) [] (Thrown NotConnected))) /\
  (outcome run <> Returned tt ->
   run = MkRun c [WriterClose] (Thrown TransportError)).
Proof.
  destruct c as [[held|] sid u k evs conn], writer; cbn.
  all: split; [split; [intros Ho; try discriminate; auto
                      | intros [Hw | Hw]; try discriminate; reflexivity]|].
  all: split; [intros Ho; try discriminate;
               (split; [reflexivity|]); (split; [intros name; reflexivity|]);
               (split; [intros key; reflexivity|]); (split; [reflexivity|]);
               intros data; reflexivity
              | intros Ho; try reflexivity; exfalso; apply Ho; reflexivity].
Qed.

Lemma closed_client_refuses_everything_witness :
  authenticate (H := Proto3.codec) "alice" (final (close CloseResolves session_in_room))
  = MkRun (final (close CloseResolves session_in_room)) [] (Thrown NotConnected) /\
  close CloseRejects session_in_room
  = MkRun session_in_room [WriterClose] (Thrown TransportError).
Proof.
  destruct (closed_client_refuses_everything (H := Proto3.codec) CloseResolves
              session_in_room) as (_ & Hclosed & _).
  destruct (closed_client_refuses_everything (H := Proto3.codec) CloseRejects
              session_in_room) as (_ & _ & Hthrows).
  split.
  - exact (proj1 (proj2 (Hclosed eq_refl)) "alice"%string).
  - apply Hthrows. vm_compute. discriminate.
Defined.

(** When the transport reports that it closed, the client only stops
    being connected: the session identifier, the username, the room key
    and the writer are kept, where a [close] that completes clears them.
    onConnectionClosed fires for a normal end and onConnectionError for an
    abrupt one, and every operation then throws NotConnected. *)
Theorem transport_closed_keeps_the_session `{ProtobufCodec}
    (abruptly : bool) (c : VoiceChatClient) :
  let c' := final (wt_closed abruptly c) in
  connected c' = false /\
  sessionId c' = sessionId c /\
  username c' = username c /\
  currentRoomKey c' = currentRoomKey c /\
  datagramWriter c' = datagramWriter c /\
  events c' = events c /\
  outcome (wt_closed abruptly c) = Returned tt /\
  effects (wt_closed abruptly c)
  = (if abruptly
     then if onConnectionError (events c)
          then [Fire (EvConnectionError ClosedAbruptly)] else []
     else if onConnectionClosed (events c) then [Fire EvConnectionClosed] else []) /\
  (forall name, authenticate name c' = MkRun c' [] (Thrown NotConnected)) /\
  (forall key, joinRoom key c' = MkRun c' [] (Thrown NotConnected)) /\
  leaveRoom c' = MkRun c' [] (Thrown NotConnected) /\
  (forall data, sendVoiceData data c' = MkRun c' [] (Thrown NotConnected)) /\
  (forall writer : WriterBehaviour,
      outcome (close writer c) = Returned tt -> sessionId c <> None ->
      sessionId c' <> sessionId (final (close writer c))).
Proof.
  assert (Hrun : wt_closed abruptly c
                 = MkRun (set_connected false c)
                     (if abruptly
                      then if onConnectionError (events c)
                           then [Fire (EvConnectionError ClosedAbruptly)] else []
                      else if onConnectionClosed (events c)
                           then [Fire EvConnectionClosed] else [])
                     (Returned tt)).
  { unfold wt_closed, mbind, Method_bind. rewrite bind_run. cbn.
    destruct abruptly; rewrite fire_run; reflexivity. }
  cbv zeta. rewrite Hrun. cbn [final effects outcome].
  repeat (split; [reflexivity|]).
  intros writer Ho Hsid.
  destruct c as [[held|] sid u k evs conn], writer; cbn in Ho, Hsid |- *;
    try discriminate; exact Hsid.
Qed.

Lemma transport_closed_keeps_the_session_witness :
  sessionId (final (wt_closed false session_in_room)) = Some 42 /\
  sessionId (final (wt_closed false session_in_room))
  <> sessionId (final (close CloseResolves session_in_room)).
Proof.
  destruct (transport_closed_keeps_the_session (H := Proto3.codec) false session_in_room)
    as (_ & Hsid & _ & _ & _ & _ & _ & _ & _ & _ & _ & _ & Hunlike).
  split; [exact Hsid|].
  apply (Hunlike CloseResolves); [reflexivity|]. vm_compute. discriminate.
Defined.

(** ** Bodies the codec rejects *)

(** When [fromBinary] throws on the body of a server packet, the handler
    logs one console error and the packet is dropped: no callback fires,
    no field changes (the session identifier included), and dispatch
    returns normally. *)
Theorem unparsable_bodies_are_logged_and_dropped `{ProtobufCodec}
    (body : list byte) (c : VoiceChatClient) :
  (fromBinary_AuthResponseSuccess body = None ->
   processDatagramData (byte_of_Z (PacketType_value AUTH_RESPONSE_SUCCESS) :: body) c
   = MkRun c [Console ErrorParsingAuthSuccess] (Returned tt)) /\
  (fromBinary_AuthResponseError body = None ->
   processDatagramData (byte_of_Z (PacketType_value AUTH_RESPONSE_ERROR) :: body) c
   = MkRun c [Console ErrorParsingAuthError] (Returned tt)) /\
  (fromBinary_JoinRoomResponse body = None ->
   processDatagramData (byte_of_Z (PacketType_value JOIN_ROOM_RESPONSE) :: body) c
   = MkRun c [Console ErrorParsingJoinRoom] (Returned tt)) /\
  (fromBinary_RoomUser body = None ->
   processDatagramData (byte_of_Z (PacketType_value USER_JOINED) :: body) c
   = MkRun c [Console ErrorParsingUserJoined] (Returned tt)).
Proof.
  split; [|split; [|split]]; intros Hparse.
  - rewrite dispatch_auth_response_success. unfold handleAuthResponseSuccess.
    rewrite Hparse. reflexivity.
  - rewrite dispatch_auth_response_error. unfold handleAuthResponseError.
    rewrite Hparse. reflexivity.
  - rewrite dispatch_join_room_response. unfold handleJoinRoomResponse.
    rewrite Hparse. reflexivity.
  - rewrite dispatch_user_joined. unfold handleUserJoined.
    rewrite Hparse. reflexivity.
Qed.

Lemma unparsable_bodies_are_logged_and_dropped_witness :
  processDatagramData (H := Proto3.codec) [x01; x09] session_in_room
  = MkRun session_in_room [Console ErrorParsingAuthSuccess] (Returned tt) /\
  processDatagramData (H := Proto3.codec) [x05; x08] session_in_room
  = MkRun session_in_room [Console ErrorParsingUserJoined] (Returned tt).
Proof.
  destruct (unparsable_bodies_are_logged_and_dropped (H := Proto3.codec) [x09]
              session_in_room) as (Hsuccess & _).
  destruct (unparsable_bodies_are_logged_and_dropped (H := Proto3.codec) [x08]
              session_in_room) as (_ & _ & _ & Hjoined).
  split; [exact (Hsuccess eq_refl) | exact (Hjoined eq_refl)].
Defined.

(** A later AUTH_RESPONSE_SUCCESS replaces the session identifier an
    earlier one stored: dispatch does not look at the state of the client
    (connected or not, authenticated or not), the last identifier is the
    one held, onAuthSuccess fires for each, and the other fields stay. *)
Theorem latest_auth_response_wins `{ProtobufCodec}
    (c : VoiceChatClient) (body1 body2 : list byte) (id1 id2 : Z) :
  fromBinary_AuthResponseSuccess body1 = Some (AuthResponseSuccess.Build id1) ->
  fromBinary_AuthResponseSuccess body2 = Some (AuthResponseSuccess.Build id2) ->
  let run :=
    readDatagrams
      [byte_of_Z (PacketType_value AUTH_RESPONSE_SUCCESS) :: body1;
       byte_of_Z (PacketType_value AUTH_RESPONSE_SUCCESS) :: body2] c in
  run = MkRun (set_sessionId (Some id2) c)
          (if onAuthSuccess (events c)
           then [Fire (EvAuthSuccess id1); Fire (EvAuthSuccess id2)] else [])
          (Returned tt) /\
  sessionId (final run) = Some id2 /\
  sessionId (final (readDatagrams
                      [byte_of_Z (PacketType_value AUTH_RESPONSE_SUCCESS) :: body1] c))
  = Some id1 /\
  connected (final run) = connected c /\
  username (final run) = username c /\
  currentRoomKey (final run) = currentRoomKey c /\
  datagramWriter (final run) = datagramWriter c.
Proof.
  intros Hp1 Hp2 run.
  assert (Hfirst : readDatagrams
                     [byte_of_Z (PacketType_value AUTH_RESPONSE_SUCCESS) :: body1] c
                   = MkRun (set_sessionId (Some id1) c)
                       (if onAuthSuccess (events c) then [Fire (EvAuthSuccess id1)] else [])
                       (Returned tt)).
  { rewrite readDatagrams_is_loop, readDatagrams_loop_cons.
    rewrite dispatch_auth_response_success, (handleAuthResponseSuccess_run body1 id1 c Hp1).
    cbn. rewrite app_nil_r. reflexivity. }
  rewrite Hfirst.
  enough (Hrun : run = MkRun (set_sessionId (Some id2) c)
                         (if onAuthSuccess (events c)
                          then [Fire (EvAuthSuccess id1); Fire (EvAuthSuccess id2)] else [])
                         (Returned tt)) by (rewrite Hrun; repeat split).
  subst run.
  rewrite readDatagrams_is_loop, readDatagrams_loop_cons.
  rewrite dispatch_auth_response_success, (handleAuthResponseSuccess_run body1 id1 c Hp1).
  cbn [final effects outcome]. rewrite readDatagrams_loop_cons.
  rewrite dispatch_auth_response_success, (handleAuthResponseSuccess_run body2 id2 _ Hp2).
  cbn. destruct (onAuthSuccess (events c)); reflexivity.
Qed.

Lemma latest_auth_response_wins_witness :
  effects (readDatagrams (H := Proto3.codec) [[x01; x08; x2a]; [x01; x08; x07]]
             (new_VoiceChatClient all_callbacks))
  = [Fire (EvAuthSuccess 42); Fire (EvAuthSuccess 7)] /\
  sessionId (final (readDatagrams (H := Proto3.codec) [[x01; x08; x2a]; [x01; x08; x07]]
                      (new_VoiceChatClient all_callbacks))) = Some 7 /\
  sessionId (final (readDatagrams (H := Proto3.codec) [[x01; x08; x2a]]
                      (new_VoiceChatClient all_callbacks))) = Some 42.
Proof.
  destruct (latest_auth_response_wins (H := Proto3.codec)
              (new_VoiceChatClient all_callbacks)
              [x08; x2a] [x08; x07] 42 7 eq_refl eq_refl) as (Hrun & Hlast & Hfirst & _).
  split; [|split; [exact Hlast | exact Hfirst]].
  exact (f_equal effects Hrun).
Defined.

(** ** What each kind of step can change *)

Section Steps.
Context `{ProtobufCodec}.

Lemma perform_inbound_frame (a : Action) (c : VoiceChatClient) :
  (exists data, a = Datagram data) \/ (exists chunks, a = Stream chunks) ->
  outcome (perform a c) = Returned tt /\
  final (perform a c) = set_sessionId (sessionId (final (perform a c))) c /\
  (effects (perform a c) = []
   \/ (exists ev, effects (perform a c) = [Fire ev])
   \/ (exists entry, effects (perform a c) = [Console entry])).
Proof.
  intros [[data ->] | [chunks ->]].
  - rewrite perform_Datagram.
    destruct (processDatagramData_frame data c) as [Ho Hf].
    split; [exact Ho|]. split; [exact Hf|]. apply processDatagramData_effects.
  - rewrite perform_Stream.
    destruct (processProtobufData_frame (concat chunks) c) as [Ho Hf].
    split; [exact Ho|]. split; [exact Hf|]. apply processProtobufData_effects.
Qed.

End Steps.

(** Each field has its writers.  The callbacks are never replaced; the
    username changes only in [authenticate] and [close]; the room key only
    in [joinRoom], [leaveRoom] and [close]; the writer only in a
    successful [connect] and in [close]; the connection flag only in
    [connect], [close] and the transport's closing. *)
Theorem fields_have_their_writers `{ProtobufCodec} (a : Action) (c : VoiceChatClient) :
  let c' := final (perform a c) in
  events c' = events c /\
  (username c' <> username c ->
   (exists name, a = CallAuthenticate name) \/ exists writer, a = CallClose writer) /\
  (currentRoomKey c' <> currentRoomKey c ->
   (exists key, a = CallJoinRoom key) \/ a = CallLeaveRoom
   \/ exists writer, a = CallClose writer) /\
  (datagramWriter c' <> datagramWriter c ->
   a = CallConnect ReadyResolves \/ exists writer, a = CallClose writer) /\
  (connected c' <> connected c ->
   (exists t, a = CallConnect t) \/ (exists writer, a = CallClose writer)
   \/ exists abruptly, a = TransportClosed abruptly).
Proof.
  cbv zeta.
  destruct a as [t|name|key| |data|writer|data|chunks|abruptly].
  - destruct c as [w sid u k evs conn], t; method_cases;
      repeat split; try reflexivity;
      try (intros Hne; first [exfalso; apply Hne; reflexivity | eauto 6]).
  - destruct c as [w sid u k evs conn]; method_cases;
      repeat split; try reflexivity;
      try (intros Hne; first [exfalso; apply Hne; reflexivity | eauto 6]).
  - destruct c as [w sid u k evs conn]; method_cases;
      repeat split; try reflexivity;
      try (intros Hne; first [exfalso; apply Hne; reflexivity | eauto 6]).
  - destruct c as [w sid u k evs conn]; method_cases;
      repeat split; try reflexivity;
      try (intros Hne; first [exfalso; apply Hne; reflexivity | eauto 6]).
  - destruct c as [w sid u k evs conn]; method_cases;
      repeat split; try reflexivity;
      try (intros Hne; first [exfalso; apply Hne; reflexivity | eauto 6]).
  - destruct c as [w sid u k evs conn], writer; method_cases;
      repeat split; try reflexivity;
      try (intros Hne; first [exfalso; apply Hne; reflexivity | eauto 6]).
  - destruct (perform_inbound_frame (Datagram data) c) as (_ & -> & _); [eauto|].
    repeat split; try reflexivity; intros Hne; exfalso; apply Hne; reflexivity.
  - destruct (perform_inbound_frame (Stream chunks) c) as (_ & -> & _); [eauto|].
    repeat split; try reflexivity; intros Hne; exfalso; apply Hne; reflexivity.
  - destruct c as [w sid u k evs conn], abruptly; method_cases;
      repeat split; try reflexivity;
      try (intros Hne; first [exfalso; apply Hne; reflexivity | eauto 6]).
Qed.

Lemma fields_have_their_writers_witness :
  (exists key, CallJoinRoom "lobby" = CallJoinRoom key)
  \/ CallJoinRoom "lobby" = CallLeaveRoom
  \/ exists writer, CallJoinRoom "lobby" = CallClose writer.
Proof.
  refine (proj1 (proj2 (proj2 (fields_have_their_writers (H := Proto3.codec)
                                 (CallJoinRoom "lobby") session_authenticated))) _).
  vm_compute. discriminate.
Defined.



(** ** From a new client to a room *)

(** The whole way in: on a new client, a successful [connect], then
    [authenticate], then an AUTH_RESPONSE_SUCCESS that carries a non-zero
    identifier, then [joinRoom] with a non-empty key, all pass.  Exactly
    two datagrams are written, the AUTH_REQUEST and then the
    JOIN_ROOM_REQUEST; onConnected and onAuthSuccess fire in that order;
    the client ends in a room, holding the identifier, the username and
    the key, and [sendVoiceData] then writes its frame. *)
Theorem connect_authenticate_join `{ProtobufCodec}
    (evs : VoiceChatClientEvents) (name key : string) (id : Z) (body : list byte) :
  id <> 0 -> key <> EmptyString ->
  fromBinary_AuthResponseSuccess body = Some (AuthResponseSuccess.Build id) ->
  let run :=
    perform_all
      [CallConnect ReadyResolves; CallAuthenticate name;
       Datagram (byte_of_Z (PacketType_value AUTH_RESPONSE_SUCCESS) :: body);
       CallJoinRoom key]
      (new_VoiceChatClient evs) in
  outcome run = Returned tt /\
  final run
  = {| datagramWriter := Some DatagramWriter; sessionId := Some id;
       username := Some name; currentRoomKey := Some key; events := evs;
       connected := true |} /\
  written (effects run)
  = [byte_of_Z (PacketType_value AUTH_REQUEST)
       :: toBinary_AuthRequest (AuthRequest.Build name EmptyString);
     byte_of_Z (PacketType_value JOIN_ROOM_REQUEST)
       :: toBinary_JoinRoomRequest (JoinRoomRequest.Build key)] /\
  fired (effects run)
  = (if onConnected evs then [EvConnected] else [])
      ++ (if onAuthSuccess evs then [EvAuthSuccess id] else []) /\
  is_in_room (final run) /\
  (forall audio : list byte,
      sendVoiceData audio (final run)
      = MkRun (final run) [Write (xff :: audio)] (Returned tt)).
Proof.
  intros Hid Hkey Hparse run.
  assert (Hsid : truthy_bigint (Some id) = true).
  { cbn. apply negb_true_iff, Z.eqb_neq, Hid. }
  assert (Hroom : truthy_string (Some key) = true).
  { cbn. apply negb_true_iff, String.eqb_neq, Hkey. }
  set (c1 := {| datagramWriter := Some DatagramWriter; sessionId := None;
                username := None; currentRoomKey := None; events := evs;
                connected := true |}).
  set (c4 := {| datagramWriter := Some DatagramWriter; sessionId := Some id;
                username := Some name; currentRoomKey := Some key; events := evs;
                connected := true |}).
  assert (H1 : perform (CallConnect ReadyResolves) (new_VoiceChatClient evs)
               = MkRun c1 ([GetWriter; StartReadLoops]
                             ++ (if onConnected evs then [Fire EvConnected] else []))
                   (Returned tt)).
  { destruct (onConnected evs) eqn:Hc; method_unfold; cbn; rewrite Hc; reflexivity. }
  assert (H2 : perform (CallAuthenticate name) c1
               = MkRun (set_username (Some name) c1)
                   [Write (byte_of_Z (PacketType_value AUTH_REQUEST)
                             :: toBinary_AuthRequest (AuthRequest.Build name EmptyString))]
                   (Returned tt)) by reflexivity.
  assert (H3 : perform (Datagram (byte_of_Z (PacketType_value AUTH_RESPONSE_SUCCESS) :: body))
                 (set_username (Some name) c1)
               = MkRun (set_sessionId (Some id) (set_username (Some name) c1))
                   (if onAuthSuccess evs then [Fire (EvAuthSuccess id)] else [])
                   (Returned tt)).
  { rewrite perform_Datagram, dispatch_auth_response_success.
    apply handleAuthResponseSuccess_run, Hparse. }
  assert (H4 : perform (CallJoinRoom key)
                 (set_sessionId (Some id) (set_username (Some name) c1))
               = MkRun c4
                   [Write (byte_of_Z (PacketType_value JOIN_ROOM_REQUEST)
                             :: toBinary_JoinRoomRequest (JoinRoomRequest.Build key))]
                   (Returned tt)).
  { cbn [perform]. unfold joinRoom, mbind, Method_bind, bind, this.
    cbn [connected sessionId set_sessionId set_username c1 negb].
    rewrite Hsid. reflexivity. }
  assert (Hrun : run
                 = MkRun c4
                     (([GetWriter; StartReadLoops]
                         ++ (if onConnected evs then [Fire EvConnected] else []))
                        ++ [Write (byte_of_Z (PacketType_value AUTH_REQUEST)
                                     :: toBinary_AuthRequest
                                          (AuthRequest.Build name EmptyString))]
                        ++ (if onAuthSuccess evs then [Fire (EvAuthSuccess id)] else [])
                        ++ [Write (byte_of_Z (PacketType_value JOIN_ROOM_REQUEST)
                                     :: toBinary_JoinRoomRequest
                                          (JoinRoomRequest.Build key))]
                        ++ [])
                     (Returned tt)).
  { subst run. rewrite perform_all_cons, H1. cbn zeta. cbn [final effects outcome].
    rewrite perform_all_cons, H2. cbn zeta. cbn [final effects outcome].
    rewrite perform_all_cons, H3. cbn zeta. cbn [final effects outcome].
    rewrite perform_all_cons, H4. reflexivity. }
  rewrite Hrun. cbn [final effects outcome].
  split; [reflexivity|]. split; [reflexivity|].
  split; [destruct (onConnected evs), (onAuthSuccess evs); reflexivity|].
  split; [destruct (onConnected evs), (onAuthSuccess evs); reflexivity|].
  split.
  - unfold is_in_room, c4. cbn [connected sessionId currentRoomKey]. auto.
  - intros audio. unfold sendVoiceData, mbind, Method_bind, bind, this, c4.
    cbn [connected sessionId currentRoomKey datagramWriter negb].
    rewrite Hsid, Hroom. reflexivity.
Qed.

Lemma connect_authenticate_join_witness :
  final (perform_all (H := Proto3.codec)
           [CallConnect ReadyResolves; CallAuthenticate "alice";
            Datagram [x01; x08; x2a]; CallJoinRoom "lobby"]
           (new_VoiceChatClient all_callbacks))
  = session_in_room /\
  written (effects (perform_all (H := Proto3.codec)
                      [CallConnect ReadyResolves; CallAuthenticate "alice";
                       Datagram [x01; x08; x2a]; CallJoinRoom "lobby"]
                      (new_VoiceChatClient all_callbacks)))
  = [[x00; x0a; x05; x61; x6c; x69; x63; x65];
     [x03; x0a; x05; x6c; x6f; x62; x62; x79]].
Proof.
  assert (Hid : 42 <> 0) by discriminate.
  assert (Hkey : "lobby"%string <> EmptyString) by discriminate.
  destruct (connect_authenticate_join (H := Proto3.codec) all_callbacks "alice" "lobby"
              42 [x08; x2a] Hid Hkey eq_refl) as (_ & Hfinal & Hwritten & _).
  split; [exact Hfinal | exact Hwritten].
Defined.

(** ** USER_LEFT identifiers *)

(** A USER_LEFT packet whose payload is the 8-byte big-endian form of an
    identifier below 2^64 fires onUserLeft with that identifier, on the
    datagram path and on the stream path; the client keeps no roster, so
    it does so for any identifier, and no field changes. *)
Theorem user_left_round_trip `{ProtobufCodec} (c : VoiceChatClient) (id : Z) :
  0 <= id < 2 ^ 64 ->
  let left :=
    MkRun c (if onUserLeft (events c) then [Fire (EvUserLeft id)] else []) (Returned tt) in
  processDatagramData (byte_of_Z (PacketType_value USER_LEFT) :: big_endian_u64 id) c = left /\
  readFromStream [[byte_of_Z (PacketType_value USER_LEFT)]; big_endian_u64 id] c = left.
Proof.
  intros Hid left. subst left.
  assert (Hhandler : handleUserLeft (big_endian_u64 id) c
                     = MkRun c (if onUserLeft (events c) then [Fire (EvUserLeft id)] else [])
                         (Returned tt)).
  { unfold handleUserLeft, big_endian_u64. rewrite big_endian_length.
    cbn [Nat.leb]. fold (big_endian_u64 id).
    rewrite bytesToBigInt_big_endian_u64 by exact Hid. apply fire_run. }
  split.
  - rewrite dispatch_user_left. exact Hhandler.
  - change (readFromStream [[byte_of_Z (PacketType_value USER_LEFT)]; big_endian_u64 id] c)
      with (perform (Stream [[byte_of_Z (PacketType_value USER_LEFT)]; big_endian_u64 id]) c).
    rewrite perform_Stream. cbn [concat app]. rewrite app_nil_r.
    rewrite <- (processDatagramData_control _ _ c) by (cbn; discriminate).
    rewrite dispatch_user_left. exact Hhandler.
Qed.

Lemma user_left_round_trip_witness :
  processDatagramData (H := Proto3.codec)
    [x06; x00; x00; x00; x00; x00; x00; x00; x63] session_in_room
  = MkRun session_in_room [Fire (EvUserLeft 99)] (Returned tt).
Proof.
  assert (Hid : 0 <= 99 < 2 ^ 64) by lia.
  exact (proj1 (user_left_round_trip (H := Proto3.codec) session_in_room 99 Hid)).
Defined.

(** ** Invariants of reachable clients *)

Section Invariants.
Context `{ProtobufCodec}.

Lemma perform_inbound_sessionId (a : Action) (c : VoiceChatClient) :
  (exists data, a = Datagram data) \/ (exists chunks, a = Stream chunks) ->
  sessionId c <> None -> sessionId (final (perform a c)) <> None.
Proof.
  intros Ha Hsid.
  destruct (sessionId_changes a c) as [-> | [[[writer ->] _] | (body & r & _ & _ & ->)]].
  - exact Hsid.
  - destruct Ha as [[data Ha] | [chunks Ha]]; discriminate.
  - discriminate.
Qed.

Lemma room_key_needs_session (c : VoiceChatClient) :
  reachable c ->
  currentRoomKey c <> None -> datagramWriter c <> None /\ sessionId c <> None.
Proof.
  induction 1 as [evs | a c Hc IH].
  - intros Hk. exfalso. apply Hk. reflexivity.
  - pose proof (connected_has_writer c Hc) as Hw.
    assert (Hinbound : (exists data, a = Datagram data) \/ (exists chunks, a = Stream chunks) ->
              currentRoomKey (final (perform a c)) <> None ->
              datagramWriter (final (perform a c)) <> None
              /\ sessionId (final (perform a c)) <> None).
    { intros Ha Hk. destruct (perform_inbound_frame a c Ha) as (_ & Hf & _).
      assert (Hkey : currentRoomKey (final (perform a c)) = currentRoomKey c)
        by (rewrite Hf; reflexivity).
      assert (Hwriter : datagramWriter (final (perform a c)) = datagramWriter c)
        by (rewrite Hf; reflexivity).
      rewrite Hkey in Hk. destruct (IH Hk) as [Hw' Hsid]. split.
      - rewrite Hwriter. exact Hw'.
      - apply perform_inbound_sessionId; assumption. }
    destruct a as [t|name|key| |data|writer|data|chunks|abruptly].
    7,8: apply Hinbound; eauto.
    all: clear Hinbound; destruct c as [w sid u k evs [|]]; cbn in IH, Hw.
    all: try destruct t; try destruct abruptly.
    all: revert IH Hw; method_cases; intros IH Hw Hk;
         try (exfalso; apply Hk; reflexivity);
         try (destruct (IH Hk) as [Hwriter Hsid]; split; assumption);
         try (specialize (Hw eq_refl); discriminate);
         try (split; [discriminate | intros Hs; subst; discriminate]);
         try (split; [discriminate | exact (proj2 (IH Hk))]).
Qed.

End Invariants.

(** On every client the API can produce: a connected client holds its
    writer, and a client that has a room key recorded holds a writer and a
    session identifier.  (The identifier may be 0 and the client may have
    lost its connection: the key is cleared only by [leaveRoom] and
    [close].) *)
Theorem reachable_clients_are_consistent `{ProtobufCodec} (c : VoiceChatClient) :
  reachable c ->
  (connected c = true -> datagramWriter c = Some DatagramWriter) /\
  (currentRoomKey c <> None -> datagramWriter c <> None /\ sessionId c <> None) /\
  (datagramWriter c = None -> connected c = false /\ currentRoomKey c = None).
Proof.
  intros Hr.
  pose proof (connected_has_writer c Hr) as Hconn.
  pose proof (room_key_needs_session c Hr) as Hroom.
  split; [exact Hconn|]. split; [exact Hroom|].
  intros Hnone. split.
  - destruct (connected c); [|reflexivity]. rewrite (Hconn eq_refl) in Hnone. discriminate.
  - destruct (currentRoomKey c) as [key|]; [|reflexivity].
    destruct Hroom as [Hw _]; [discriminate|]. contradiction.
Qed.

Lemma reachable_clients_are_consistent_witness :
  datagramWriter session_in_room = Some DatagramWriter /\
  datagramWriter (final (wt_closed false session_in_room)) <> None /\
  sessionId (final (wt_closed false session_in_room)) <> None.
Proof.
  destruct (reachable_clients_are_consistent (H := Proto3.codec) session_in_room
              session_in_room_reachable) as (Hconn & _).
  destruct (reachable_clients_are_consistent (H := Proto3.codec)
              (final (wt_closed false session_in_room))
              (reachable_step (H := Proto3.codec) (TransportClosed false) session_in_room
                 session_in_room_reachable)) as (_ & Hroom & _).
  split; [exact (Hconn eq_refl)|].
  apply Hroom. vm_compute. discriminate.
Defined.
